(** * SwiftRover: the telemetry store of app.py

    A shallow embedding of the database functions, the two data
    endpoints and the background sync worker of [app.py], together with
    the properties of the local-first telemetry store that the
    specification states about them.

    [app.py] imports [save_to_local_db], [sync_to_cloud],
    [check_internet], [init_local_db] and [get_cloud_connection] from the
    module [database_sync].  Where one of them is needed it is either a
    section variable (any implementation) or a definition written from
    the specification and marked as such. *)

From Stdlib Require Import PrimFloat ZArith Ascii.
From stdpp Require Import gmap strings list sorting.

Set Warnings "-register-all".

Open Scope string_scope.
Open Scope list_scope.

(** ** Data model *)

(** One row of the table [sensor_data], restricted to the six columns
    every query selects.  [None] is SQL NULL / Python [None]. *)
Record Sample := {
  timestamp : string;
  ultrasonic_cm : option float;
  ir_left : option Z;
  ir_center : option Z;
  ir_right : option Z;
  line_state : option string
}.

(** A row of the local SQLite table: the sample, its row id and the
    local-only [synced] flag. *)
Record LocalRow := {
  row_id : nat;
  row_sample : Sample;
  synced : bool
}.

(** The tuple a history query yields for one row:
    [(timestamp, ultrasonic_cm, ir_left, ir_center, ir_right, line_state)]. *)
Definition HistoryTuple : Type :=
  string * option float * option Z * option Z * option Z * option string.

Definition to_tuple (r : Sample) : HistoryTuple :=
  (timestamp r, ultrasonic_cm r, ir_left r, ir_center r, ir_right r, line_state r).

Record SyncStatus := {
  attempted : bool;
  success : bool;
  count : nat;
  reason : option string
}.

(** ** Python exceptions and the observable events of a run *)

Inductive exn := Exception (msg : string).

Definition exn_msg (e : exn) : string := let 'Exception m := e in m.

Inductive pyresult (A : Type) :=
| Returned (a : A)
| Raised (e : exn).
Arguments Returned {A} a.
Arguments Raised {A} e.

(** The calls made on a PostgreSQL connection inside the [try] block of
    the cloud path, in program order. *)
Inductive CloudStage := PgImport | PgCursor | PgExecute | PgFetchall | PgClose.

(** The calls made on the SQLite side inside the [try] block of the
    local path, in program order. *)
Inductive LocalStage := LiteConnect | LiteCursor | LiteExecute | LiteFetchall | LiteClose.

#[global] Instance CloudStage_eq_dec : EqDecision CloudStage.
Proof. solve_decision. Defined.
#[global] Instance LocalStage_eq_dec : EqDecision LocalStage.
Proof. solve_decision. Defined.

(** The lines the program prints, kept structured. *)
Inductive LogLine :=
| CloudRetrieved (n : nat) (date : string)
| CloudNoRecords (date : string)
| CloudError (e : exn)
| CloudNoConnection (error : string)
| LocalRetrieved (n : nat) (date : string)
| LocalError (e : exn)
| SaveWarning (e : exn)
| LiveDataError (e : exn)
| HistoricalDataError (e : exn).

Inductive Event :=
| GetCloudConnection
| Cloud (op : CloudStage)
| Local (op : LocalStage)
| Print (line : LogLine)
| CheckInternet (up : bool)
| SyncToCloud
| Sleep (seconds : Z).

(** The state the program acts on: both tables, the persisted sync
    status, and the trace of events so far (earliest first). *)
Record World := {
  local_table : list LocalRow;
  remote_table : list Sample;
  sync_status : option SyncStatus;
  events : list Event
}.

Definition set_local_table (t : list LocalRow) (w : World) : World :=
  {| local_table := t; remote_table := remote_table w;
     sync_status := sync_status w; events := events w |}.

Definition set_remote_table (t : list Sample) (w : World) : World :=
  {| local_table := local_table w; remote_table := t;
     sync_status := sync_status w; events := events w |}.

Definition set_sync_status (s : option SyncStatus) (w : World) : World :=
  {| local_table := local_table w; remote_table := remote_table w;
     sync_status := s; events := events w |}.

Definition add_event (ev : Event) (w : World) : World :=
  {| local_table := local_table w; remote_table := remote_table w;
     sync_status := sync_status w; events := events w ++ [ev] |}.

Definition add_events (evs : list Event) (w : World) : World :=
  foldl (fun w ev => add_event ev w) w evs.

Definition is_cloud_event (ev : Event) : bool :=
  match ev with
  | GetCloudConnection | Cloud _ => true
  | _ => false
  end.

Definition is_local_event (ev : Event) : bool :=
  match ev with
  | Local _ => true
  | _ => false
  end.

(** A PostgreSQL connection as the program sees it: the call of the read
    path that raises on it (if any), and whether a batch write raises. *)
Record Connection := {
  conn_fault : option (CloudStage * exn);
  write_fault : option exn
}.

(** What lies outside the program during one call: the process
    environment, what an attempt to connect to the cloud yields (a
    connection or an error description), the SQLite call that raises (if
    any), and the date functions of the two SQL engines on text: the date
    portion of a time value, or NULL when the text is not one
    ([sqlite_date] is SQLite's [date(X)], [pg_date] PostgreSQL's
    [DATE(X)]). *)
Record Env := {
  environ : gmap string string;
  cloud_link : Connection + string;
  local_fault : option (LocalStage * exn);
  sqlite_date : string -> option string;
  pg_date : string -> option string
}.

(** ** A state and exception monad for Python code *)

Definition M (A : Type) : Type := World -> pyresult A * World.

Definition ret {A} (a : A) : M A := fun w => (Returned a, w).

Definition bind {A B} (m : M A) (f : A -> M B) : M B :=
  fun w =>
    match m w with
    | (Returned a, w') => f a w'
    | (Raised e, w') => (Raised e, w')
    end.

Definition raise {A} (e : exn) : M A := fun w => (Raised e, w).

(** [try: body  except Exception as e: handler e] *)
Definition try_except {A} (body : M A) (handler : exn -> M A) : M A :=
  fun w =>
    match body w with
    | (Returned a, w') => (Returned a, w')
    | (Raised e, w') => handler e w'
    end.

Definition emit (ev : Event) : M unit := fun w => (Returned tt, add_event ev w).

Definition print (line : LogLine) : M unit := emit (Print line).

Definition read {A} (f : World -> A) : M A := fun w => (Returned (f w), w).

Definition modify (f : World -> World) : M unit := fun w => (Returned tt, f w).

#[global] Instance M_ret : MRet M := @ret.
#[global] Instance M_bind : MBind M := fun A B f m => bind m f.

(** A call that raises exactly when the fault plan names it. *)
Definition attempt {S} `{EqDecision S} (fault : option (S * exn)) (here : S) : M unit :=
  match fault with
  | Some (s, e) => if decide (s = here) then raise e else ret tt
  | None => ret tt
  end.

(** ** Python truthiness of an optional string *)

(** [if date_str:] holds for a non-empty string only; [truthy] returns
    that string. *)
Definition truthy (v : option string) : option string :=
  match v with
  | Some s => if decide (s = "") then None else Some s
  | None => None
  end.

(** [date_str or 'ALL'] *)
Definition or_ALL (date_str : option string) : string :=
  default "ALL" (truthy date_str).

(** ** ORDER BY timestamp *)

Definition ts_le (a b : Sample) : Prop := String.le (timestamp a) (timestamp b).

#[global] Instance ts_le_dec : RelDecision ts_le.
Proof. intros a b. unfold ts_le. apply _. Defined.

#[global] Instance ts_le_total : Total ts_le.
Proof. intros a b. unfold ts_le. apply (total String.le). Qed.

#[global] Instance ts_le_trans : Transitive ts_le.
Proof. intros a b c. unfold ts_le. apply transitivity. Qed.

Definition order_by_timestamp (rows : list Sample) : list Sample :=
  merge_sort ts_le rows.

(** ** Configuration *)

(** [CLOUD_DB_URL = os.environ.get("DATABASE_URL", "")] *)
Definition CLOUD_DB_URL (env : Env) : string :=
  default "" (environ env !! "DATABASE_URL").

(** Modelled from the spec: [get_cloud_connection] of [database_sync] is
    missing from the sources.  By section 4.3, [connect()] returns the
    connection, or none plus an error description on failure (missing
    configuration, authentication or network failure), and never
    raises. *)
Definition get_cloud_connection (env : Env) : M (option Connection * string) :=
  emit GetCloudConnection ;;
  if decide (CLOUD_DB_URL env = "") then ret (None, "DATABASE_URL not set")
  else match cloud_link env with
       | inl conn => ret (Some conn, "")
       | inr error => ret (None, error)
       end.

(** ** The history query *)

(** [SELECT timestamp, ultrasonic_cm, ir_left, ir_center, ir_right,
    line_state FROM sensor_data [WHERE DATE(timestamp) = %s]
    ORDER BY timestamp ASC].  PostgreSQL casts the parameter to a date
    before it compares, so the filter goes through [pg_date] as the
    column does; a comparison with NULL is not true. *)
Definition cloud_select (env : Env) (date_str : option string) (table : list Sample) : list Sample :=
  match truthy date_str with
  | Some d =>
      order_by_timestamp
        (filter (fun r => is_Some (pg_date env (timestamp r))
                          /\ pg_date env (timestamp r) = pg_date env d)
                table)
  | None => order_by_timestamp table
  end.

(** The cast of the parameter in [DATE(timestamp) = %s]: a filter that
    PostgreSQL does not read as a date makes [execute] raise. *)
Definition cast_parameter (env : Env) (date_str : option string) : M unit :=
  match truthy date_str with
  | Some d =>
      match pg_date env d with
      | Some _ => ret tt
      | None => raise (Exception "invalid input syntax for type date")
      end
  | None => ret tt
  end.

(** [SELECT ... FROM sensor_data [WHERE date(timestamp) = date(?)]
    ORDER BY timestamp]; a comparison with NULL is not true. *)
Definition local_select (env : Env) (date_str : option string) (table : list LocalRow) : list Sample :=
  match truthy date_str with
  | Some d =>
      order_by_timestamp
        (row_sample <$>
           filter (fun r => is_Some (sqlite_date env (timestamp (row_sample r)))
                            /\ sqlite_date env (timestamp (row_sample r)) = sqlite_date env d)
                  table)
  | None => order_by_timestamp (row_sample <$> table)
  end.

Definition cloud_op (conn : Connection) (op : CloudStage) : M unit :=
  emit (Cloud op) ;; attempt (conn_fault conn) op.

Definition local_op (env : Env) (op : LocalStage) : M unit :=
  emit (Local op) ;; attempt (local_fault env) op.

(** The body of the [try] block of the cloud path (lines 92-121). *)
Definition cloud_try (env : Env) (conn : Connection) (date_str : option string) : M (list HistoryTuple) :=
  cloud_op conn PgImport ;;
  cloud_op conn PgCursor ;;
  cloud_op conn PgExecute ;;
  cast_parameter env date_str ;;
  cloud_op conn PgFetchall ;;
  records ← read (fun w => cloud_select env date_str (remote_table w));
  cloud_op conn PgClose ;;
  print (CloudRetrieved (length records) (or_ALL date_str)) ;;
  let result := to_tuple <$> records in
  (if decide (length result = 0)
   then print (CloudNoRecords (or_ALL date_str)) else ret tt) ;;
  ret result.

(** The body of the [try] block of the local path (lines 136-157). *)
Definition local_try (env : Env) (date_str : option string) : M (list HistoryTuple) :=
  local_op env LiteConnect ;;
  local_op env LiteCursor ;;
  local_op env LiteExecute ;;
  local_op env LiteFetchall ;;
  records ← read (fun w => to_tuple <$> local_select env date_str (local_table w));
  local_op env LiteClose ;;
  print (LocalRetrieved (length records) (or_ALL date_str)) ;;
  ret records.

(** The cloud half of [get_historical_data] (lines 88-132): [Some]
    result when the function returns from inside the [try] block,
    [None] when control falls through to the local path. *)
Definition cloud_path (env : Env) (date_str : option string) : M (option (list HistoryTuple)) :=
  if decide (CLOUD_DB_URL env = "") then ret None
  else
    reply ← get_cloud_connection env;
    match reply with
    | (Some conn, _) =>
        try_except
          (result ← cloud_try env conn date_str; ret (Some result))
          (fun e =>
             print (CloudError e) ;;
             try_except (cloud_op conn PgClose) (fun _ => ret tt) ;;
             ret None)
    | (None, error) =>
        print (CloudNoConnection error) ;; ret None
    end.

(** The local half (lines 135-160). *)
Definition local_path (env : Env) (date_str : option string) : M (list HistoryTuple) :=
  try_except
    (local_try env date_str)
    (fun e => print (LocalError e) ;; ret []).

Definition get_historical_data (env : Env) (date_str : option string) : M (list HistoryTuple) :=
  early ← cloud_path env date_str;
  match early with
  | Some result => ret result
  | None => local_path env date_str
  end.

(** ** JSON responses *)

Inductive json :=
| JNull
| JBool (b : bool)
| JInt (z : Z)
| JFloat (f : float)
| JStr (s : string)
| JArr (items : list json)
| JObj (members : list (string * json)).

(** What a Flask view returns: [jsonify(body)] and the status code. *)
Definition Response : Type := json * Z.

Definition json_str (v : option string) : json :=
  match v with Some s => JStr s | None => JNull end.

Definition json_float (v : option float) : json :=
  match v with Some f => JFloat f | None => JNull end.

Definition json_int (v : option Z) : json :=
  match v with Some z => JInt z | None => JNull end.

Definition internal_server_error : Response :=
  (JObj [("error", JStr "Internal server error")], 500%Z).

(** Python truthiness of a parsed JSON value. *)
Definition json_truthy (j : json) : bool :=
  match j with
  | JNull => false
  | JBool b => b
  | JInt z => negb (z =? 0)%Z
  | JFloat f => negb (PrimFloat.eqb f 0%float)
  | JStr s => negb (bool_decide (s = ""))
  | JArr items => negb (bool_decide (length items = 0))
  | JObj members => negb (bool_decide (length members = 0))
  end.

(** [d.get(key)] on the items of a dictionary. *)
Fixpoint dict_get (members : list (string * json)) (key : string) : option json :=
  match members with
  | [] => None
  | (k, v) :: rest => if decide (k = key) then Some v else dict_get rest key
  end.

(** [type(v).__name__] of a parsed JSON value. *)
Definition type_name (j : json) : string :=
  match j with
  | JNull => "NoneType"
  | JBool _ => "bool"
  | JInt _ => "int"
  | JFloat _ => "float"
  | JStr _ => "str"
  | JArr _ => "list"
  | JObj _ => "dict"
  end.

(** The AttributeError of [v.get] on a value that is not a dictionary. *)
Definition no_attribute_get (j : json) : exn :=
  Exception ("'" +:+ type_name j +:+ "' object has no attribute 'get'").

(** The member of an object by its key; no other value has members. *)
#[global] Instance json_lookup : Lookup string json json :=
  fun key j =>
    match j with
    | JObj members => dict_get members key
    | _ => None
    end.

(** ** The endpoint /api/historical-data *)

(** [request.json] as the view uses it. *)
Inductive RequestJson :=
| Unparsable (e : exn)         (* reading [request.json] raises *)
| NoBody                       (* a falsy value: null, {}, [], "", 0, false *)
| NotAnObject                  (* a truthy value that has no [get] *)
| Body (date : option string). (* a non-empty object and its member 'date' *)

(** [r[0]] ... [r[5]] *)
Definition r0 (r : HistoryTuple) : string := let '(t, _, _, _, _, _) := r in t.
Definition r1 (r : HistoryTuple) : option float := let '(_, u, _, _, _, _) := r in u.
Definition r2 (r : HistoryTuple) : option Z := let '(_, _, l, _, _, _) := r in l.
Definition r3 (r : HistoryTuple) : option Z := let '(_, _, _, c, _, _) := r in c.
Definition r4 (r : HistoryTuple) : option Z := let '(_, _, _, _, x, _) := r in x.
Definition r5 (r : HistoryTuple) : option string := let '(_, _, _, _, _, s) := r in s.

(** The dictionary [data] of lines 392-399. *)
Definition historical_data (records : list HistoryTuple) : json :=
  JObj [ ("timestamps", JArr ((fun r => JStr (r0 r)) <$> records));
         ("ultrasonic", JArr ((fun r => json_float (r1 r)) <$> records));
         ("ir_left", JArr ((fun r => json_int (r2 r)) <$> records));
         ("ir_center", JArr ((fun r => json_int (r3 r)) <$> records));
         ("ir_right", JArr ((fun r => json_int (r4 r)) <$> records));
         ("line_state", JArr ((fun r => JStr (default "" (truthy (r5 r)))) <$> records)) ].

Definition api_historical_data (env : Env) (request_json : RequestJson) : M Response :=
  try_except
    (match request_json with
     | Unparsable e => raise e
     | NoBody => ret (JObj [("error", JStr "JSON body required")], 400%Z)
     | NotAnObject => raise (Exception "AttributeError: object has no attribute 'get'")
     | Body date_str =>
         records ← get_historical_data env date_str;
         ret (historical_data records, 200%Z)
     end)
    (fun e => print (HistoricalDataError e) ;; ret internal_server_error).

(** ** The endpoint /api/live-data *)

Section Ingestion.

(** [get_adafruit_data]: the latest value of a feed, or [None]; it
    catches its own exceptions. *)
Variable get_adafruit_data : string -> option string.
(** Python's [float()] and [int()] on a string; [None] is ValueError. *)
Variable py_float : string -> option float.
Variable py_int : string -> option Z.
(** [datetime.now().isoformat()] *)
Variable now : string.
(** [save_to_local_db] of [database_sync], called with keyword
    arguments; any implementation. *)
Variable save_to_local_db : Sample -> M unit.

(** [conv(v) if v else None] *)
Definition convert {A} (conv : string -> option A) (v : option string) : M (option A) :=
  match truthy v with
  | Some s =>
      match conv s with
      | Some x => ret (Some x)
      | None => raise (Exception "ValueError")
      end
  | None => ret None
  end.

(** The inner [try] block (lines 347-354): the arguments are evaluated
    left to right, then the call is made. *)
Definition store_sample (timestamp : string)
    (ultrasonic ir_left ir_center ir_right line_state : option string) : M unit :=
  u ← convert py_float ultrasonic;
  l ← convert py_int ir_left;
  c ← convert py_int ir_center;
  r ← convert py_int ir_right;
  save_to_local_db
    {| timestamp := timestamp; ultrasonic_cm := u; ir_left := l;
       ir_center := c; ir_right := r; line_state := truthy line_state |}.

(** The dictionary [data] of lines 358-366. *)
Definition live_data (timestamp : string)
    (ultrasonic ir_left ir_center ir_right line_state camera_motion : option string) : json :=
  JObj [ ("ultrasonic_cm", json_str ultrasonic);
         ("ir_left", json_str ir_left);
         ("ir_center", json_str ir_center);
         ("ir_right", json_str ir_right);
         ("line_state", json_str line_state);
         ("camera_motion", json_str camera_motion);
         ("timestamp", JStr timestamp) ].

Definition api_live_data : M Response :=
  try_except
    (let ultrasonic := get_adafruit_data "ultrasonic_cm" in
     let ir_left := get_adafruit_data "ir_left" in
     let ir_center := get_adafruit_data "ir_center" in
     let ir_right := get_adafruit_data "ir_right" in
     let line_state := get_adafruit_data "line_state" in
     let camera_motion := get_adafruit_data "camera_motion" in
     let timestamp := now in
     try_except
       (store_sample timestamp ultrasonic ir_left ir_center ir_right line_state)
       (fun e => print (SaveWarning e)) ;;
     ret (live_data timestamp ultrasonic ir_left ir_center ir_right
                    line_state camera_motion, 200%Z))
    (fun e => print (LiveDataError e) ;; ret internal_server_error).

(** The response that carries the polled values. *)
Definition polled : Response :=
  (live_data now (get_adafruit_data "ultrasonic_cm") (get_adafruit_data "ir_left")
             (get_adafruit_data "ir_center") (get_adafruit_data "ir_right")
             (get_adafruit_data "line_state") (get_adafruit_data "camera_motion"),
   200%Z).

End Ingestion.

(** ** The stores and the sync cycle of database_sync *)

Module LocalStore.

(** Modelled from the spec: the generated identifier of section 4.1,
    here one more than the largest identifier in the table. *)
Definition next_id (table : list LocalRow) : nat :=
  S (max_list (row_id <$> table)).

(** Modelled from the spec: [save_to_local_db] is missing from the
    sources.  By section 4.1, [insert(sample)] appends one sample with
    [synced = false] and returns a generated identifier; a write
    failure is reported to the caller. *)
Definition insert (fault : option exn) (s : Sample) : M nat :=
  match fault with
  | Some e => raise e
  | None =>
      id ← read (fun w => next_id (local_table w));
      modify (fun w =>
        set_local_table
          (local_table w ++ [{| row_id := id; row_sample := s; synced := false |}]) w) ;;
      ret id
  end.

(** Modelled from the spec: the order of [unsynced()], by the
    timestamp of the sample. *)
Definition row_le (a b : LocalRow) : Prop := ts_le (row_sample a) (row_sample b).

#[global] Instance row_le_dec : RelDecision row_le.
Proof. intros a b. unfold row_le. apply _. Defined.

(** Modelled from the spec: by section 4.1, [unsynced()] yields the
    rows with [synced = false], ordered by timestamp ascending. *)
Definition unsynced : M (list LocalRow) :=
  read (fun w => merge_sort row_le (filter (fun r => synced r = false) (local_table w))).

(** Modelled from the spec: the effect of [markSynced(ids)] on one
    row. *)
Definition mark (ids : list nat) (r : LocalRow) : LocalRow :=
  if decide (row_id r ∈ ids)
  then {| row_id := row_id r; row_sample := row_sample r; synced := true |}
  else r.

(** Modelled from the spec: by section 4.1, [markSynced(ids)] sets
    [synced = true] for the given identifiers. *)
Definition markSynced (ids : list nat) : M unit :=
  modify (fun w => set_local_table (mark ids <$> local_table w) w).

End LocalStore.

Module CloudStore.

(** Modelled from the spec: the remote write of [sync_to_cloud] is
    missing from the sources.  By section 4.3 the write is an upsert
    keyed on [timestamp]: a row with the sample's timestamp is
    replaced, otherwise the sample is appended. *)
Fixpoint upsert (s : Sample) (table : list Sample) : list Sample :=
  match table with
  | [] => [s]
  | r :: rest =>
      if decide (timestamp r = timestamp s) then s :: rest
      else r :: upsert s rest
  end.

(** Modelled from the spec: [writeBatch(samples)] inserts the samples
    into the remote table, one upsert each, in order. *)
Definition writeBatch (samples : list Sample) (table : list Sample) : list Sample :=
  foldl (fun t s => upsert s t) table samples.

(** A crash-retry history: the same batch sent [n] times. *)
Definition replay (n : nat) (samples : list Sample) (table : list Sample) : list Sample :=
  Nat.iter n (writeBatch samples) table.

(** The number of rows of the table that carry the timestamp [ts]. *)
Definition rows_at (ts : string) (table : list Sample) : nat :=
  length (filter (fun r => timestamp r = ts) table).

End CloudStore.

Module SyncEngine.

(** Modelled from the spec: the SyncStatus is overwritten after a sync
    attempt (section 3); [failed] and [succeeded] are the records of
    steps 4 to 6 of section 4.4. *)
Definition record_status (st : SyncStatus) : M unit :=
  modify (set_sync_status (Some st)).

Definition failed (why : string) : SyncStatus :=
  {| attempted := true; success := false; count := 0; reason := Some why |}.

Definition succeeded (n : nat) : SyncStatus :=
  {| attempted := true; success := true; count := n; reason := None |}.

(** Modelled from the spec: [sync_to_cloud] is missing from the
    sources.  This is one sync cycle once the prober has reported
    reachable, steps 3 to 6 of section 4.4. *)
Definition sync_to_cloud (env : Env) : M unit :=
  batch ← LocalStore.unsynced;
  match batch with
  | [] => record_status (succeeded 0)
  | _ :: _ =>
      reply ← get_cloud_connection env;
      match reply with
      | (None, error) => record_status (failed error)
      | (Some conn, _) =>
          match write_fault conn with
          | Some e => record_status (failed (exn_msg e))
          | None =>
              modify (fun w =>
                set_remote_table
                  (CloudStore.writeBatch (row_sample <$> batch) (remote_table w)) w) ;;
              LocalStore.markSynced (row_id <$> batch) ;;
              record_status (succeeded (length batch))
          end
      end
  end.

End SyncEngine.

(** ** The sync worker *)

(** Modelled from the spec: [check_internet] is missing from the
    sources.  By section 4.2, [isReachable()] probes the network and
    returns a boolean, and never raises; [up] is what the probe finds at
    this tick. *)
Definition check_internet (up : bool) : M bool :=
  emit (CheckInternet up) ;; ret up.

Section SyncWorker.

(** [sync_to_cloud] of [database_sync]; any implementation. *)
Variable sync_to_cloud : M unit.

(** One iteration of [while True] in [sync_loop] (lines 529-531). *)
Definition sync_iteration (up : bool) : M unit :=
  reachable ← check_internet up;
  (if reachable : bool then emit SyncToCloud ;; sync_to_cloud else ret tt) ;;
  emit (Sleep 300).

(** [sync_loop] never returns; this is its run over the ticks for which
    [network] gives the state of the network. *)
Fixpoint sync_loop (network : list bool) : M unit :=
  match network with
  | [] => ret tt
  | up :: later => sync_iteration up ;; sync_loop later
  end.

(** What happens to the store while the worker runs: a tick of the
    sync loop, or an ingestion that inserts a sample (and may fail). *)
Inductive Activity :=
| Tick (up : bool)
| Insert (s : Sample) (fault : option exn).

(** The ingestion path: the insert, with a failure caught and reported
    as [api_live_data] does. *)
Definition ingest (s : Sample) (fault : option exn) : M unit :=
  try_except
    (LocalStore.insert fault s ;; ret tt)
    (fun e => print (SaveWarning e)).

(** The worker thread and the ingestion requests interleaved.  A tick
    whose cycle raises ends the worker thread ([alive] becomes false);
    ingestion goes on. *)
Fixpoint run (alive : bool) (acts : list Activity) (w : World) : World :=
  match acts with
  | [] => w
  | Tick up :: later =>
      if alive then
        match sync_iteration up w with
        | (Returned _, w') => run true later w'
        | (Raised _, w') => run false later w'
        end
      else run false later w
  | Insert s fault :: later => run alive later (snd (ingest s fault w))
  end.

End SyncWorker.

(** The samples that the ingestions of [acts] insert successfully. *)
Definition inserted (acts : list Activity) : list Sample :=
  omap (fun a => match a with Insert s None => Some s | _ => None end) acts.

(** ** What the claims speak of *)

(** The cloud read path fails: no connection could be established, or
    one of the calls of the query raises. *)
Definition cloud_read_fails (env : Env) : Prop :=
  (exists error, cloud_link env = inr error)
  \/ (exists conn st e, cloud_link env = inl conn /\ conn_fault conn = Some (st, e)).

(** The cloud read path succeeds: the URL is configured, a connection
    is established and no call on it raises. *)
Definition cloud_read_succeeds (env : Env) : Prop :=
  CLOUD_DB_URL env <> ""
  /\ exists conn, cloud_link env = inl conn /\ conn_fault conn = None.

(** The cloud query can run with this filter: there is none, or
    PostgreSQL reads it as a date. *)
Definition castable (env : Env) (date_str : option string) : Prop :=
  match truthy date_str with
  | Some d => is_Some (pg_date env d)
  | None => True
  end.

(** What makes the cloud path hand the query over to the local path. *)
Definition cloud_does_not_serve (env : Env) (date_str : option string) : Prop :=
  CLOUD_DB_URL env = "" \/ cloud_read_fails env \/ ~ castable env date_str.

(** The rows a query must yield from [table]: all of them when no date
    is given, those whose date portion is the given day otherwise, each
    once, oldest first. *)
Definition history_of (date_of : string -> option string) (date_str : option string)
    (table rows : list Sample) : Prop :=
  StronglySorted ts_le rows
  /\ match date_str with
     | None => rows ≡ₚ table
     | Some day => rows ≡ₚ filter (fun r => date_of (timestamp r) = Some day) table
     end.

(** A date filter as the query contract has it: absent, or one calendar
    date in the form that the date function of either engine yields. *)
Definition calendar_date (env : Env) (date_str : option string) : Prop :=
  match date_str with
  | None => True
  | Some day =>
      day <> "" /\ sqlite_date env day = Some day /\ pg_date env day = Some day
  end.

(** The worker is offline over [acts]: every tick finds the network
    unreachable. *)
Definition offline (acts : list Activity) : Prop :=
  forall up, Tick up ∈ acts -> up = false.

(** A status record saying that a sync was attempted and failed because
    the cloud was unreachable. *)
Definition unreachable_recorded (w : World) : Prop :=
  exists st, sync_status w = Some st
             /\ attempted st = true /\ success st = false
             /\ reason st = Some "unreachable".

(** ** Example data *)

Definition is_digit (c : ascii) : bool :=
  (48 <=? nat_of_ascii c)%nat && (nat_of_ascii c <=? 57)%nat.

(** A date function for ISO-8601 text: the first ten characters when
    they have the shape YYYY-MM-DD, NULL otherwise. *)
Definition iso_date (s : string) : option string :=
  let d := String.substring 0 10 s in
  match String.list_ascii_of_string d with
  | [y1; y2; y3; y4; h1; m1; m2; h2; d1; d2] =>
      if forallb is_digit [y1; y2; y3; y4; m1; m2; d1; d2]
         && Ascii.eqb h1 "-"%char && Ascii.eqb h2 "-"%char
      then Some d else None
  | _ => None
  end.

Definition sample_at (ts : string) (cm : option float) (state : option string) : Sample :=
  {| timestamp := ts; ultrasonic_cm := cm; ir_left := Some 0%Z;
     ir_center := Some 1%Z; ir_right := None; line_state := state |}.

Definition s1 : Sample := sample_at "2024-05-02T08:00:00" (Some 12.5%float) (Some "center").
Definition s2 : Sample := sample_at "2024-05-01T09:30:00" None None.
Definition s3 : Sample := sample_at "2024-05-01T07:15:00" (Some 40%float) (Some "").

Definition local_row (id : nat) (s : Sample) : LocalRow :=
  {| row_id := id; row_sample := s; synced := false |}.

Definition world0 : World :=
  {| local_table := [local_row 1 s1; local_row 2 s2; local_row 3 s3];
     remote_table := [s1; s3];
     sync_status := None;
     events := [] |}.

Definition healthy : Connection := {| conn_fault := None; write_fault := None |}.

Definition broken (st : CloudStage) : Connection :=
  {| conn_fault := Some (st, Exception "connection reset"); write_fault := None |}.

Definition env_with (vars : gmap string string) (link : Connection + string)
    (fault : option (LocalStage * exn)) : Env :=
  {| environ := vars; cloud_link := link; local_fault := fault;
     sqlite_date := iso_date; pg_date := iso_date |}.

Definition configured : gmap string string :=
  {[ "DATABASE_URL" := "postgresql://neon/telemetry" ]}.

(** The sample [s2] measured again: same timestamp, another reading. *)
Definition s2_again : Sample :=
  sample_at "2024-05-01T09:30:00" (Some 8%float) (Some "right").

Definition s4 : Sample := sample_at "2024-05-02T11:00:00" None (Some "left").

(** An environment in which the cloud is configured and healthy. *)
Definition online : Env := env_with configured (inl healthy) None.

(** An Adafruit IO feed for the examples. *)
Definition feed (key : string) : option string :=
  if decide (key = "ultrasonic_cm") then Some "17.0"
  else if decide (key = "ir_left") then Some "1"
  else if decide (key = "line_state") then Some "left"
  else None.

Definition float_table (s : string) : option float :=
  if decide (s = "17.0") then Some 17%float else None.

Definition int_table (s : string) : option Z :=
  if decide (s = "1") then Some 1%Z else if decide (s = "0") then Some 0%Z else None.

Definition disk_full : Sample -> M unit := fun _ => raise (Exception "disk full").

(** ** The Adafruit IO broker *)

(** The configuration of lines 38-66 once loaded: the two credentials
    and [AIO_FEEDS], which is whatever [json.loads] made of the
    configured text (lines 60-66): an object from feed keys to feed
    names when the text is as intended, but any JSON value otherwise.
    [format_value] is how an f-string renders a value that is not a
    string. *)
Record AioConfig := {
  AIO_USERNAME : string;
  AIO_KEY : string;
  AIO_FEEDS : json;
  format_value : json -> string
}.

(** What [requests.get] or [requests.post] yields: a response, with its
    status code and what [response.json().get("value")] gives (it may
    raise on a body that is not a JSON object), or an exception. *)
Inductive HttpReply :=
| Replied (status_code : Z) (value : pyresult (option string))
| NoReply (e : exn).

(** The world outside the broker functions: what the k-th reading of
    [time.time()] returns and how the k-th HTTP request ends. *)
Record Internet := {
  time_time : nat -> float;
  http_reply : nat -> HttpReply
}.

(** The outside calls of the broker functions.  A request is recorded
    by its URL and, for a POST, the value posted; the header carrying the
    key and the timeout of 5 seconds are the same in every request. *)
Inductive Call :=
| HttpGet (url : string)
| HttpPost (url : string) (value : string)
| TimeSleep (seconds : float).

(** The module-level state of the broker functions: the two cache
    dictionaries, the rate limiting tracker, and how far the clock and
    the network have been consumed, with the calls made (earliest
    first).  Log lines are not part of the state. *)
Record Broker := {
  _adafruit_cache : gmap string (option string);
  _adafruit_cache_time : gmap string float;
  _last_command_time : gmap string float;
  clock_reads : nat;
  requests : nat;
  calls : list Call
}.

Definition ADAFRUIT_CACHE_TTL : float := 10%float.
Definition RATE_LIMIT_SECONDS : float := 2%float.

Definition B (A : Type) : Type := Broker -> pyresult A * Broker.

#[global] Instance B_ret : MRet B := fun A a b => (Returned a, b).
#[global] Instance B_bind : MBind B :=
  fun A C f m b =>
    match m b with
    | (Returned a, b') => f a b'
    | (Raised e, b') => (Raised e, b')
    end.

Definition b_raise {A} (e : exn) : B A := fun b => (Raised e, b).

(** [try: body  except Exception as e: handler e] *)
Definition b_try {A} (body : B A) (handler : exn -> B A) : B A :=
  fun b =>
    match body b with
    | (Returned a, b') => (Returned a, b')
    | (Raised e, b') => handler e b'
    end.

Definition b_read {A} (f : Broker -> A) : B A := fun b => (Returned (f b), b).

(** A value that is there or an exception that is raised. *)
Definition b_lift {A} (r : pyresult A) : B A :=
  match r with
  | Returned a => mret a
  | Raised e => b_raise e
  end.

(** [time.time()] *)
Definition time_now (net : Internet) : B float :=
  fun b =>
    (Returned (time_time net (clock_reads b)),
     {| _adafruit_cache := _adafruit_cache b;
        _adafruit_cache_time := _adafruit_cache_time b;
        _last_command_time := _last_command_time b;
        clock_reads := S (clock_reads b);
        requests := requests b;
        calls := calls b |}).

(** [time.sleep(seconds)] *)
Definition time_sleep (seconds : float) : B unit :=
  fun b =>
    (Returned tt,
     {| _adafruit_cache := _adafruit_cache b;
        _adafruit_cache_time := _adafruit_cache_time b;
        _last_command_time := _last_command_time b;
        clock_reads := clock_reads b;
        requests := requests b;
        calls := calls b ++ [TimeSleep seconds] |}).

(** One HTTP request: it is recorded, and it returns the status code and
    the value of the response, or raises. *)
Definition http_request (net : Internet) (call : Call)
  : B (Z * pyresult (option string)) :=
  fun b =>
    (match http_reply net (requests b) with
     | Replied status value => Returned (status, value)
     | NoReply e => Raised e
     end,
     {| _adafruit_cache := _adafruit_cache b;
        _adafruit_cache_time := _adafruit_cache_time b;
        _last_command_time := _last_command_time b;
        clock_reads := clock_reads b;
        requests := S (requests b);
        calls := calls b ++ [call] |}).

(** [_adafruit_cache[feed_key] = value; _adafruit_cache_time[feed_key] = now] *)
Definition cache_store (feed_key : string) (value : option string) (now : float) : B unit :=
  fun b =>
    (Returned tt,
     {| _adafruit_cache := <[feed_key := value]> (_adafruit_cache b);
        _adafruit_cache_time := <[feed_key := now]> (_adafruit_cache_time b);
        _last_command_time := _last_command_time b;
        clock_reads := clock_reads b;
        requests := requests b;
        calls := calls b |}).

(** [_last_command_time[feed_key] = t] *)
Definition command_time_store (feed_key : string) (t : float) : B unit :=
  fun b =>
    (Returned tt,
     {| _adafruit_cache := _adafruit_cache b;
        _adafruit_cache_time := _adafruit_cache_time b;
        _last_command_time := <[feed_key := t]> (_last_command_time b);
        clock_reads := clock_reads b;
        requests := requests b;
        calls := calls b |}).

(** [_adafruit_cache.get(feed_key)] *)
Definition cache_get (feed_key : string) (b : Broker) : option string :=
  default None (_adafruit_cache b !! feed_key).

(** [not AIO_USERNAME or not AIO_KEY] *)
Definition no_credentials (cfg : AioConfig) : bool :=
  bool_decide (AIO_USERNAME cfg = "") || bool_decide (AIO_KEY cfg = "").

(** [AIO_FEEDS.get(feed_key, "")]: only an object has [get]; on any
    other value the call raises AttributeError. *)
Definition feeds_get (cfg : AioConfig) (feed_key : string) : pyresult json :=
  match AIO_FEEDS cfg with
  | JObj members => Returned (default (JStr "") (dict_get members feed_key))
  | other => Raised (no_attribute_get other)
  end.

(** [{feed_name}] inside the f-string of the URL. *)
Definition name_text (cfg : AioConfig) (feed_name : json) : string :=
  match feed_name with
  | JStr s => s
  | other => format_value cfg other
  end.

(** The feed name that goes into the URL for [feed_key]; empty when the
    lookup raises or gives a value that is not truthy. *)
Definition feed_name_of (cfg : AioConfig) (feed_key : string) : string :=
  match feeds_get cfg feed_key with
  | Returned feed_name => if json_truthy feed_name then name_text cfg feed_name else ""
  | Raised _ => ""
  end.

Definition feed_url (cfg : AioConfig) (feed_name : string) (tail : string) : string :=
  "https://io.adafruit.com/api/v2/" +:+ AIO_USERNAME cfg +:+ "/feeds/"
    +:+ feed_name +:+ tail.

(** The cache check of lines 180-183: the cached value when the key is
    cached and its age is below the TTL. *)
Definition cache_hit (feed_key : string) (now : float) (b : Broker) : option (option string) :=
  match _adafruit_cache b !! feed_key with
  | Some v =>
      let cache_age := PrimFloat.sub now (default 0%float (_adafruit_cache_time b !! feed_key)) in
      if PrimFloat.ltb cache_age ADAFRUIT_CACHE_TTL then Some v else None
  | None => None
  end.

(** [get_adafruit_data] (lines 171-206). *)
Definition get_adafruit_data (cfg : AioConfig) (net : Internet) (feed_key : string)
  : B (option string) :=
  if no_credentials cfg then mret None
  else
    now ← time_now net;
    hit ← b_read (cache_hit feed_key now);
    match hit with
    | Some v => mret v
    | None =>
        b_try
          (feed_name ← b_lift (feeds_get cfg feed_key);
           if negb (json_truthy feed_name) then mret None
           else
             response ← http_request net
               (HttpGet (feed_url cfg (name_text cfg feed_name) "/data/last"));
             if decide (response.1 = 200%Z) then
               value ← b_lift response.2;
               cache_store feed_key value now ;;
               mret value
             else if decide (response.1 = 429%Z) then
               b_read (cache_get feed_key)
             else mret None)
          (fun e => b_read (cache_get feed_key))
    end.

(** [str.lower()] on the ASCII letters; every other byte is kept.  No
    character outside ASCII lowers to a letter of "stop". *)
Definition ascii_lower (c : ascii) : ascii :=
  let n := nat_of_ascii c in
  if (65 <=? n)%nat && (n <=? 90)%nat then ascii_of_nat (n + 32) else c.

Fixpoint lower (s : string) : string :=
  match s with
  | EmptyString => EmptyString
  | String c rest => String (ascii_lower c) (lower rest)
  end.

(** What [send_adafruit_command] returns: ["rate_limited"], [True] or
    [False]. *)
Inductive CommandResult := RateLimited | Sent | NotSent.

(** [bool(result)]: the string ["rate_limited"] is truthy. *)
Definition result_bool (r : CommandResult) : bool :=
  match r with
  | NotSent => false
  | _ => true
  end.

Definition is_stop_command (value : string) : bool :=
  bool_decide (lower value = "stop").

Definition max_retries (value : string) : nat :=
  if is_stop_command value then 3 else 1.

Definition retry_delay : float := 2.5%float.

(** [is_stop_command and attempt < max_retries - 1] *)
Definition may_retry (value : string) (attempt : nat) : bool :=
  is_stop_command value && (attempt <? max_retries value - 1)%nat.

(** The retry loop of lines 252-293 over the attempts still to make.
    The [try] block of one attempt and its handler either return from
    the function ([Some]) or sleep and [continue] ([None]); the loop that
    runs out returns [False]. *)
Fixpoint post_attempts (net : Internet) (url feed_key value : string)
    (range : list nat) : B CommandResult :=
  match range with
  | [] => mret NotSent
  | attempt :: later =>
      outcome ← b_try
        (response ← http_request net (HttpPost url value);
         if decide (response.1 = 429%Z) then
           if may_retry value attempt
           then time_sleep retry_delay ;; mret None
           else mret (Some RateLimited)
         else if decide (response.1 = 200%Z \/ response.1 = 201%Z) then
           t ← time_now net;
           command_time_store feed_key t ;;
           mret (Some Sent)
         else mret (Some NotSent))
        (fun e =>
           if may_retry value attempt
           then time_sleep retry_delay ;; mret None
           else mret (Some NotSent));
      match outcome with
      | Some result => mret result
      | None => post_attempts net url feed_key value later
      end
  end.

(** The local rate limit of lines 229-234: a command that is not a stop
    is refused while the last one sent to the feed is less than
    [RATE_LIMIT_SECONDS] old. *)
Definition locally_limited (feed_key value : string) (now : float) (b : Broker) : bool :=
  negb (is_stop_command value)
  && PrimFloat.ltb
       (PrimFloat.sub now (default 0%float (_last_command_time b !! feed_key)))
       RATE_LIMIT_SECONDS.

(** [send_adafruit_command] (lines 212-293).  The lookup of the feed
    name (line 242) stands outside every [try]: what it raises leaves
    the function. *)
Definition send_adafruit_command (cfg : AioConfig) (net : Internet)
    (feed_key value : string) : B CommandResult :=
  now ← time_now net;
  limited ← b_read (locally_limited feed_key value now);
  if limited : bool then mret RateLimited
  else if no_credentials cfg then mret NotSent
  else
    feed_name ← b_lift (feeds_get cfg feed_key);
    if negb (json_truthy feed_name) then mret NotSent
    else
      post_attempts net (feed_url cfg (name_text cfg feed_name) "/data") feed_key value
                    (seq 0 (max_retries value)).

(** ** The control endpoints *)

(** [request.json.get(key)]: only an object has [get]. *)
Definition json_get (j : json) (key : string) : B (option json) :=
  match j with
  | JObj members => mret (dict_get members key)
  | other => b_raise (no_attribute_get other)
  end.

Definition json_error (message : string) (status : Z) : Response :=
  (JObj [("error", JStr message)], status).

(** The common shape of [api_control_motor], [api_control_led] and
    [api_control_buzzer]: the member [field] of the body must be one of
    the strings [allowed]; it is then sent to the feed [feed_key]. *)
Definition control_endpoint (cfg : AioConfig) (net : Internet)
    (field : string) (invalid : string) (allowed : list string) (feed_key : string)
    (request_json : pyresult json) : B Response :=
  b_try
    (body ← b_lift request_json;
     if negb (json_truthy body) then mret (json_error "JSON body required" 400%Z)
     else
       given ← json_get body field;
       match given with
       | Some (JStr choice) =>
           if decide (choice ∈ allowed) then
             result ← send_adafruit_command cfg net feed_key choice;
             match result with
             | RateLimited =>
                 mret (JObj [("success", JBool false); (field, JStr choice);
                             ("rate_limited", JBool true)], 429%Z)
             | _ =>
                 mret (JObj [("success", JBool (result_bool result));
                             (field, JStr choice)], 200%Z)
             end
           else mret (json_error invalid 400%Z)
       | _ => mret (json_error invalid 400%Z)
       end)
    (fun e => mret internal_server_error).

(** [api_control_motor] (lines 405-423). *)
Definition api_control_motor (cfg : AioConfig) (net : Internet)
    (request_json : pyresult json) : B Response :=
  control_endpoint cfg net "action" "Invalid action"
    ["forward"; "backward"; "left"; "right"; "stop"] "motor_control" request_json.

(** [api_control_led] (lines 425-442). *)
Definition api_control_led (cfg : AioConfig) (net : Internet)
    (request_json : pyresult json) : B Response :=
  control_endpoint cfg net "state" "Invalid state" ["on"; "off"] "led_control" request_json.

(** [api_control_buzzer] (lines 444-461). *)
Definition api_control_buzzer (cfg : AioConfig) (net : Internet)
    (request_json : pyresult json) : B Response :=
  control_endpoint cfg net "state" "Invalid state" ["on"; "off"] "buzzer_control" request_json.

Definition rate_limited_response (extra : list (string * json)) : Response :=
  (JObj ([("success", JBool false)] ++ extra ++ [("rate_limited", JBool true)]), 429%Z).

(** [api_line_tracking_start] (lines 463-473). *)
Definition api_line_tracking_start (cfg : AioConfig) (net : Internet) : B Response :=
  b_try
    (result ← send_adafruit_command cfg net "line_tracking" "start";
     match result with
     | RateLimited =>
         mret (rate_limited_response
                 [("message", JStr "Rate limited - please wait 2 seconds")])
     | _ => mret (JObj [("success", JBool (result_bool result))], 200%Z)
     end)
    (fun e => mret internal_server_error).

(** [api_line_tracking_stop] (lines 475-485). *)
Definition api_line_tracking_stop (cfg : AioConfig) (net : Internet) : B Response :=
  b_try
    (result ← send_adafruit_command cfg net "line_tracking" "stop";
     match result with
     | RateLimited =>
         mret (rate_limited_response
                 [("message", JStr "Rate limited - please wait 2 seconds")])
     | _ => mret (JObj [("success", JBool true);
                        ("message", JStr "Stop command sent")], 200%Z)
     end)
    (fun e => mret (JObj [("success", JBool false);
                          ("message", JStr "Error sending stop command")], 200%Z)).

(** [api_obstacle_avoidance_start] (lines 487-504). *)
Definition api_obstacle_avoidance_start (cfg : AioConfig) (net : Internet) : B Response :=
  b_try
    (result ← send_adafruit_command cfg net "obstacle_avoidance" "start";
     match result with
     | RateLimited =>
         mret (rate_limited_response
                 [("message", JStr "Rate limited - please wait 2 seconds")])
     | Sent => mret (JObj [("success", JBool true); ("sent", JBool true)], 200%Z)
     | NotSent => mret (JObj [("success", JBool false); ("sent", JBool false)], 200%Z)
     end)
    (fun e => mret (JObj [("error", JStr "Internal server error");
                          ("sent", JBool false)], 500%Z)).

(** [api_obstacle_avoidance_stop] (lines 506-523). *)
Definition api_obstacle_avoidance_stop (cfg : AioConfig) (net : Internet) : B Response :=
  b_try
    (result ← send_adafruit_command cfg net "obstacle_avoidance" "stop";
     match result with
     | RateLimited =>
         mret (rate_limited_response
                 [("message", JStr "Rate limited - please wait 2 seconds")])
     | Sent => mret (JObj [("success", JBool true);
                           ("message", JStr "Stop command sent");
                           ("sent", JBool true)], 200%Z)
     | NotSent => mret (JObj [("success", JBool false);
                              ("message", JStr "Failed to send stop command");
                              ("sent", JBool false)], 200%Z)
     end)
    (fun e => mret (JObj [("success", JBool false);
                          ("message", JStr "Error sending stop command");
                          ("sent", JBool false); ("error", JStr (exn_msg e))], 200%Z)).

(** ** What the further properties speak of *)

(** How a request can end without a fresh value: status 429, a body
    that is not a JSON object with status 200, or no response. *)
Definition no_fresh_value (reply : HttpReply) : Prop :=
  match reply with
  | Replied status (Returned _) => status = 429%Z
  | Replied status (Raised _) => status = 200%Z \/ status = 429%Z
  | NoReply _ => True
  end.

Definition is_post (c : Call) : bool :=
  match c with
  | HttpPost _ _ => true
  | _ => false
  end.

(** What a run of the retry loop over at most [n] attempts, from [b] to
    [b'] with result [r], keeps: it makes between none and [n] requests,
    leaves the cache alone, records the time of the command exactly when
    it was sent, and calls nothing but the POST and the sleep between
    retries, the POST first. *)
Definition attempts_outcome (net : Internet) (url feed_key value : string) (n : nat)
    (b : Broker) (r : CommandResult) (b' : Broker) : Prop :=
  requests b <= requests b' <= requests b + n
  /\ _adafruit_cache b' = _adafruit_cache b
  /\ _adafruit_cache_time b' = _adafruit_cache_time b
  /\ (r <> Sent ->
      _last_command_time b' = _last_command_time b
      /\ clock_reads b' = clock_reads b)
  /\ (r = Sent ->
      _last_command_time b'
      = <[feed_key := time_time net (clock_reads b)]> (_last_command_time b)
      /\ clock_reads b' = S (clock_reads b))
  /\ exists made,
       calls b' = calls b ++ made
       /\ Forall (fun c => c = HttpPost url value \/ c = TimeSleep retry_delay) made
       /\ (0 < n -> head made = Some (HttpPost url value))
       /\ length (filter (fun c => is_post c = true) made)
          = requests b' - requests b.

(** A reply after which a stop command is tried again: status 429 or
    no response. *)
Definition retriable (reply : HttpReply) : Prop :=
  match reply with
  | Replied status _ => status = 429%Z
  | NoReply _ => True
  end.

(** A reply that counts as success: status 200 or 201. *)
Definition accepted (reply : HttpReply) : Prop :=
  match reply with
  | Replied status _ => status = 200%Z \/ status = 201%Z
  | NoReply _ => False
  end.

(** The URL a command for [feed_key] is posted to. *)
Definition command_url (cfg : AioConfig) (feed_key : string) : string :=
  feed_url cfg (feed_name_of cfg feed_key) "/data".

(** What one reply makes of a command that is not tried again. *)
Definition single_attempt_result (reply : HttpReply) : CommandResult :=
  match reply with
  | Replied status _ =>
      if decide (status = 429%Z) then RateLimited
      else if decide (status = 200%Z \/ status = 201%Z) then Sent
      else NotSent
  | NoReply _ => NotSent
  end.

(** The response of a control endpoint to a valid choice, by the result
    of the command (lines 417-420 and alike). *)
Definition control_response (field choice : string) (r : CommandResult) : Response :=
  match r with
  | RateLimited =>
      (JObj [("success", JBool false); (field, JStr choice);
             ("rate_limited", JBool true)], 429%Z)
  | _ => (JObj [("success", JBool (result_bool r)); (field, JStr choice)], 200%Z)
  end.

Definition motor_actions : list string := ["forward"; "backward"; "left"; "right"; "stop"].

Definition switch_states : list string := ["on"; "off"].

(** One of the four numeric readings is not empty and is rejected by
    [float()] or [int()]. *)
Definition rejected {A} (conv : string -> option A) (v : option string) : Prop :=
  exists s, truthy v = Some s /\ conv s = None.

(** [sync_to_cloud] returns and logs nothing of its own. *)
Definition quiet (sync_to_cloud : M unit) : Prop :=
  forall w, exists w', sync_to_cloud w = (Returned (), w') /\ events w' = events w.

(** The events of one tick of the sync loop around a quiet cycle. *)
Definition tick_events (up : bool) : list Event :=
  if up then [CheckInternet true; SyncToCloud; Sleep 300]
  else [CheckInternet false; Sleep 300].

(** ** Example data for the broker *)

(** The rendering of the numbers and truth values used below. *)
Definition render (j : json) : string :=
  match j with
  | JInt 7 => "7"
  | JBool true => "True"
  | _ => "?"
  end.

Definition aio : AioConfig :=
  {| AIO_USERNAME := "rover"; AIO_KEY := "aio_secret";
     AIO_FEEDS := JObj [ ("ultrasonic_cm", JStr "ultrasonic");
                         ("motor_control", JStr "motor");
                         ("line_tracking", JStr "line") ];
     format_value := render |}.

Definition aio_blank : AioConfig :=
  {| AIO_USERNAME := ""; AIO_KEY := ""; AIO_FEEDS := JObj []; format_value := render |}.

(** The credentials are set, but the feeds were configured as a list:
    [AIO_FEEDS='[]']. *)
Definition aio_listed : AioConfig :=
  {| AIO_USERNAME := "rover"; AIO_KEY := "aio_secret";
     AIO_FEEDS := JArr []; format_value := render |}.

(** A feed whose name was configured as a number. *)
Definition aio_numbered : AioConfig :=
  {| AIO_USERNAME := "rover"; AIO_KEY := "aio_secret";
     AIO_FEEDS := JObj [ ("motor_control", JInt 7) ]; format_value := render |}.

(** An internet given by the successive clock readings and replies. *)
Definition net_of (times : list float) (replies : list HttpReply) : Internet :=
  {| time_time := fun k => nth k times 0%float;
     http_reply := fun k => nth k replies (NoReply (Exception "timed out")) |}.

Definition broker0 : Broker :=
  {| _adafruit_cache := ∅; _adafruit_cache_time := ∅; _last_command_time := ∅;
     clock_reads := 0; requests := 0; calls := [] |}.

(** The distance feed cached at time 1000. *)
Definition broker_cached : Broker :=
  {| _adafruit_cache := {[ "ultrasonic_cm" := Some "12.5" ]};
     _adafruit_cache_time := {[ "ultrasonic_cm" := 1000%float ]};
     _last_command_time := ∅;
     clock_reads := 0; requests := 0; calls := [] |}.

(** A motor command accepted at time 1000. *)
Definition broker_sent : Broker :=
  {| _adafruit_cache := ∅; _adafruit_cache_time := ∅;
     _last_command_time := {[ "motor_control" := 1000%float ]};
     clock_reads := 0; requests := 0; calls := [] |}.

Definition ok (value : string) : HttpReply := Replied 200 (Returned (Some value)).

Definition too_many : HttpReply := Replied 429 (Returned None).

Definition raising : M unit := fun w => (Raised (Exception "connection lost"), w).

Definition silent : M unit := fun w => (Returned tt, w).

(** A feed whose distance reading is not a number. *)
Definition garbled (key : string) : option string :=
  if decide (key = "ultrasonic_cm") then Some "n/a" else feed key.

(** A [save_to_local_db] that inserts the sample. *)
Definition store_locally (s : Sample) : M unit :=
  LocalStore.insert None s ;; mret tt.

(** A [save_to_local_db] that adds the row and then raises. *)
Definition save_partial (s : Sample) : M unit :=
  LocalStore.insert None s ;; raise (Exception "database is locked").

(** ** Tactics for running the model *)

(** Unfold the monad and the program down to nested [add_event]s. *)
Ltac py_eval :=
  cbv [mbind mret M_bind M_ret bind ret try_except emit print read modify
       attempt raise];
  cbn [add_event set_local_table set_remote_table set_sync_status
       local_table remote_table sync_status events fst snd].

(** Decide the tests of the program that the context settles. *)
Ltac py_cases :=
  repeat lazymatch goal with
    | |- context [decide (?a = ?b)] =>
        destruct (decide (a = b)); try congruence; py_eval
    end.

(** The list of events by which the world [t] extends [w]. *)
Ltac trace_of t w :=
  lazymatch t with
  | w => constr:(@nil Event)
  | add_event ?ev ?t' => let l := trace_of t' w in constr:(l ++ [ev])
  end.

(** Solve [exists new, (r, t) = (r', add_events new w) /\ Forall P new]
    when [t] is [w] under concrete [add_event]s. *)
Ltac give_trace w :=
  lazymatch goal with
  | |- exists new, (_, ?t) = _ /\ _ =>
      let l := trace_of t w in
      exists l; split; [reflexivity | cbn [app]; repeat constructor]
  end.

(** Unfold the broker monad down to the state. *)
Ltac b_eval :=
  cbv [mbind mret B_bind B_ret b_try b_read b_lift b_raise time_now time_sleep
       http_request cache_store command_time_store];
  cbn [_adafruit_cache _adafruit_cache_time _last_command_time clock_reads
       requests calls fst snd].

(** ** Running the model *)

Lemma local_table_add_events evs w : local_table (add_events evs w) = local_table w.
Proof.
  unfold add_events. revert w.
  induction evs as [|ev evs IH]; intros w; cbn; [done | by rewrite IH].
Qed.

Lemma remote_table_add_events evs w : remote_table (add_events evs w) = remote_table w.
Proof.
  unfold add_events. revert w.
  induction evs as [|ev evs IH]; intros w; cbn; [done | by rewrite IH].
Qed.

Lemma sync_status_add_events evs w : sync_status (add_events evs w) = sync_status w.
Proof.
  unfold add_events. revert w.
  induction evs as [|ev evs IH]; intros w; cbn; [done | by rewrite IH].
Qed.

Lemma events_add_events evs w : events (add_events evs w) = events w ++ evs.
Proof.
  unfold add_events. revert w.
  induction evs as [|ev evs IH]; intros w; cbn.
  - by rewrite app_nil_r.
  - rewrite IH. cbn. by rewrite <- app_assoc.
Qed.

Lemma add_events_app evs1 evs2 w :
  add_events evs2 (add_events evs1 w) = add_events (evs1 ++ evs2) w.
Proof. unfold add_events. by rewrite foldl_app. Qed.

(** ** Properties of the history query *)

Lemma get_historical_data_unfold env date_str w :
  get_historical_data env date_str w =
  match cloud_path env date_str w with
  | (Returned (Some result), w') => (Returned result, w')
  | (Returned None, w') => local_path env date_str w'
  | (Raised e, w') => (Raised e, w')
  end.
Proof.
  unfold get_historical_data. py_eval.
  destruct (cloud_path _ _ _) as [[[r|]|e] w']; reflexivity.
Qed.

Lemma cloud_path_unconfigured env date_str w :
  CLOUD_DB_URL env = "" ->
  cloud_path env date_str w = (Returned None, w).
Proof.
  intros Hurl. unfold cloud_path.
  destruct (decide (CLOUD_DB_URL env = "")); [done | contradiction].
Qed.

Lemma cast_parameter_cases env date_str :
  (castable env date_str /\ cast_parameter env date_str = ret tt)
  \/ (~ castable env date_str
      /\ cast_parameter env date_str
         = raise (Exception "invalid input syntax for type date")).
Proof.
  unfold castable, cast_parameter. destruct (truthy date_str) as [d|]; [|by left].
  destruct (pg_date env d); [left | right]; by split.
Qed.

Lemma cloud_path_fails env date_str w :
  CLOUD_DB_URL env <> "" ->
  cloud_read_fails env ->
  exists new,
    cloud_path env date_str w = (Returned None, add_events new w)
    /\ Forall (fun ev => is_local_event ev = false) new.
Proof.
  intros Hurl Hfail.
  unfold cloud_path, get_cloud_connection, cloud_try, cloud_op.
  destruct (decide (CLOUD_DB_URL env = "")) as [|_]; [contradiction|].
  destruct (cast_parameter_cases env date_str) as [[_ ->]|[_ ->]];
    (destruct Hfail as [[error Hlink]|(conn & st & e & Hlink & Hfault)];
     rewrite Hlink; py_eval;
     [give_trace w | rewrite Hfault; destruct st; py_cases; give_trace w]).
Qed.

Lemma cloud_path_succeeds env date_str w :
  cloud_read_succeeds env ->
  castable env date_str ->
  exists new,
    cloud_path env date_str w
    = (Returned (Some (to_tuple <$> cloud_select env date_str (remote_table w))),
       add_events new w)
    /\ Forall (fun ev => is_local_event ev = false) new.
Proof.
  intros (Hurl & conn & Hlink & Hfault) Hcast.
  unfold cloud_path, get_cloud_connection, cloud_try, cloud_op.
  destruct (decide (CLOUD_DB_URL env = "")) as [|_]; [contradiction|].
  destruct (cast_parameter_cases env date_str) as [[_ ->]|[? _]]; [|done].
  rewrite Hlink; py_eval. rewrite Hfault. py_cases; give_trace w.
Qed.

(** A filter that PostgreSQL does not read as a date makes the cloud
    query raise: the cloud path logs the error, closes and falls
    through. *)
Lemma cloud_path_uncastable env date_str w :
  cloud_read_succeeds env ->
  ~ castable env date_str ->
  exists new,
    cloud_path env date_str w = (Returned None, add_events new w)
    /\ Forall (fun ev => is_local_event ev = false) new.
Proof.
  intros (Hurl & conn & Hlink & Hfault) Hcast.
  unfold cloud_path, get_cloud_connection, cloud_try, cloud_op.
  destruct (decide (CLOUD_DB_URL env = "")) as [|_]; [contradiction|].
  destruct (cast_parameter_cases env date_str) as [[? _]|[_ ->]]; [done|].
  rewrite Hlink; py_eval. rewrite Hfault. py_cases; give_trace w.
Qed.

Lemma local_path_succeeds env date_str w :
  local_fault env = None ->
  exists new,
    local_path env date_str w
    = (Returned (to_tuple <$> local_select env date_str (local_table w)),
       add_events new w)
    /\ Forall (fun ev => is_cloud_event ev = false) new.
Proof.
  intros Hfault. unfold local_path, local_try, local_op. py_eval.
  rewrite Hfault. give_trace w.
Qed.

Lemma local_path_fails env date_str w st e :
  local_fault env = Some (st, e) ->
  exists new,
    local_path env date_str w = (Returned [], add_events new w)
    /\ Forall (fun ev => is_cloud_event ev = false) new.
Proof.
  intros Hfault. unfold local_path, local_try, local_op. py_eval.
  rewrite Hfault. destruct st; py_cases; give_trace w.
Qed.

Lemma cloud_path_cases env :
  CLOUD_DB_URL env = ""
  \/ (CLOUD_DB_URL env <> "" /\ cloud_read_fails env)
  \/ cloud_read_succeeds env.
Proof.
  destruct (decide (CLOUD_DB_URL env = "")) as [|Hurl]; [by left | right].
  unfold cloud_read_fails, cloud_read_succeeds.
  destruct (cloud_link env) as [conn|error] eqn:Hlink; [|by eauto 6].
  destruct (conn_fault conn) as [[st e]|] eqn:Hfault; [by eauto 10 | by eauto 6].
Qed.

(** When the cloud path does not serve the query, the call is the local
    path run after whatever the cloud path logged. *)
Lemma get_historical_data_falls_through env date_str w :
  CLOUD_DB_URL env = "" \/ cloud_read_fails env ->
  exists new,
    get_historical_data env date_str w = local_path env date_str (add_events new w)
    /\ Forall (fun ev => is_local_event ev = false) new.
Proof.
  intros Hcloud. rewrite get_historical_data_unfold.
  destruct (decide (CLOUD_DB_URL env = "")) as [Hurl|Hurl].
  - rewrite cloud_path_unconfigured by done. by exists [].
  - destruct Hcloud as [|Hfail]; [contradiction|].
    destruct (cloud_path_fails env date_str w Hurl Hfail) as (new & -> & Hnew).
    by exists new.
Qed.

Lemma get_historical_data_from_cloud env date_str w :
  cloud_read_succeeds env ->
  castable env date_str ->
  exists new,
    get_historical_data env date_str w
    = (Returned (to_tuple <$> cloud_select env date_str (remote_table w)),
       add_events new w)
    /\ Forall (fun ev => is_local_event ev = false) new.
Proof.
  intros Hok Hcast. rewrite get_historical_data_unfold.
  destruct (cloud_path_succeeds env date_str w Hok Hcast) as (new & -> & Hnew).
  by exists new.
Qed.

Lemma get_historical_data_handed_over env date_str w :
  cloud_does_not_serve env date_str ->
  exists new,
    get_historical_data env date_str w = local_path env date_str (add_events new w)
    /\ Forall (fun ev => is_local_event ev = false) new.
Proof.
  intros Hcloud. rewrite get_historical_data_unfold.
  destruct (cloud_path_cases env) as [Hurl|[[Hurl Hfail]|Hok]].
  - rewrite cloud_path_unconfigured by done. by exists [].
  - destruct (cloud_path_fails env date_str w Hurl Hfail) as (new & -> & Hnew).
    by exists new.
  - destruct Hcloud as [Hurl|[Hfail|Hcast]].
    + by destruct Hok.
    + destruct Hok as [Hurl _].
      destruct (cloud_path_fails env date_str w Hurl Hfail) as (new & -> & Hnew).
      by exists new.
    + destruct (cloud_path_uncastable env date_str w Hok Hcast) as (new & -> & Hnew).
      by exists new.
Qed.

Lemma get_historical_data_from_local env date_str w :
  CLOUD_DB_URL env = "" \/ cloud_read_fails env ->
  local_fault env = None ->
  exists new,
    get_historical_data env date_str w
    = (Returned (to_tuple <$> local_select env date_str (local_table w)),
       add_events new w).
Proof.
  intros Hcloud Hlocal.
  destruct (get_historical_data_falls_through env date_str w Hcloud) as (new1 & -> & _).
  destruct (local_path_succeeds env date_str (add_events new1 w) Hlocal) as (new2 & -> & _).
  rewrite local_table_add_events, add_events_app. by eexists.
Qed.

(** *** ORDER BY and WHERE *)

Lemma order_by_timestamp_sorted rows : StronglySorted ts_le (order_by_timestamp rows).
Proof. apply StronglySorted_merge_sort; apply _. Qed.

Lemma order_by_timestamp_perm rows : order_by_timestamp rows ≡ₚ rows.
Proof. apply merge_sort_Permutation. Qed.

Lemma cloud_select_history env date_str table :
  calendar_date env date_str ->
  history_of (pg_date env) date_str table (cloud_select env date_str table).
Proof.
  intros Hdate. unfold cloud_select, history_of.
  destruct date_str as [day|]; cbn.
  - destruct Hdate as (Hday & _ & Hcanon). destruct (decide (day = "")); [done|].
    split; [apply order_by_timestamp_sorted|].
    rewrite order_by_timestamp_perm, Hcanon.
    erewrite list_filter_iff; [done|].
    intros r. split; [by intros [_ ?] | intros Heq; by rewrite Heq].
  - split; [apply order_by_timestamp_sorted | apply order_by_timestamp_perm].
Qed.

Lemma local_select_history env date_str table :
  calendar_date env date_str ->
  history_of (sqlite_date env) date_str (row_sample <$> table)
             (local_select env date_str table).
Proof.
  intros Hdate. unfold local_select, history_of.
  destruct date_str as [day|]; cbn.
  - destruct Hdate as (Hday & Hcanon & _). destruct (decide (day = "")); [done|].
    split; [apply order_by_timestamp_sorted|].
    rewrite order_by_timestamp_perm, Hcanon.
    induction table as [|r table IH]; [done|].
    rewrite fmap_cons, !filter_cons.
    destruct (decide (is_Some _ /\ _)) as [[_ Heq]|Hne];
      destruct (decide (sqlite_date env (timestamp (row_sample r)) = Some day)) as [Heq'|Hne'].
    + rewrite fmap_cons. by f_equiv.
    + contradiction.
    + destruct Hne. rewrite Heq'. by split; [eexists|].
    + exact IH.
  - split; [apply order_by_timestamp_sorted | apply order_by_timestamp_perm].
Qed.

Lemma local_path_returns env date_str w :
  exists result new,
    local_path env date_str w = (Returned result, add_events new w)
    /\ Forall (fun ev => is_cloud_event ev = false) new.
Proof.
  destruct (local_fault env) as [[st e]|] eqn:Hlocal.
  - destruct (local_path_fails env date_str w st e Hlocal) as (new & -> & Hnew).
    by eexists _, new.
  - destruct (local_path_succeeds env date_str w Hlocal) as (new & -> & Hnew).
    by eexists _, new.
Qed.

Lemma cloud_serves_or_not env date_str :
  (cloud_read_succeeds env /\ castable env date_str)
  \/ cloud_does_not_serve env date_str.
Proof.
  unfold cloud_does_not_serve.
  destruct (cloud_path_cases env) as [Hurl|[[_ Hfail]|Hok]]; [tauto..|].
  destruct (cast_parameter_cases env date_str) as [[Hcast _]|[Hcast _]]; tauto.
Qed.

Lemma get_historical_data_returns env date_str w :
  exists result new,
    get_historical_data env date_str w = (Returned result, add_events new w).
Proof.
  destruct (cloud_serves_or_not env date_str) as [[Hok Hcast]|Hnot].
  - destruct (get_historical_data_from_cloud env date_str w Hok Hcast)
      as (new & Hrun & _).
    by eexists _, new.
  - destruct (get_historical_data_handed_over env date_str w Hnot) as (new1 & -> & _).
    destruct (local_path_returns env date_str (add_events new1 w))
      as (result & new2 & -> & _).
    rewrite add_events_app. by eexists _, _.
Qed.

(** *** The claims about [get_historical_data] *)

(** When the cloud path does not serve the query, the result is the
    one of the local path: the Local Store's query, or the empty list
    when the local read raises. *)
Lemma get_historical_data_local_result env date_str w :
  cloud_does_not_serve env date_str ->
  exists result new,
    get_historical_data env date_str w = (Returned result, add_events new w)
    /\ (local_fault env = None ->
        result = to_tuple <$> local_select env date_str (local_table w))
    /\ (local_fault env <> None -> result = []).
Proof.
  intros Hcloud.
  destruct (get_historical_data_handed_over env date_str w Hcloud) as (new1 & -> & _).
  destruct (local_fault env) as [[st e]|] eqn:Hlocal.
  - destruct (local_path_fails env date_str (add_events new1 w) st e Hlocal)
      as (new2 & -> & _).
    rewrite add_events_app. by eexists _, _.
  - destruct (local_path_succeeds env date_str (add_events new1 w) Hlocal)
      as (new2 & -> & _).
    rewrite local_table_add_events, add_events_app. by eexists _, _.
Qed.

(** C1: for every optional date filter, if the cloud read path fails (no
    connection can be established, or a call of the cloud query raises,
    be it a fault of the connection or the server refusing the filter as
    a date), [get_historical_data] returns a value, never an exception,
    and that value is the result of the Local Store's query for the same
    filter. *)
Theorem cloud_failure_falls_back_to_local env date_str w :
  cloud_read_fails env \/ ~ castable env date_str ->
  exists result new,
    get_historical_data env date_str w = (Returned result, add_events new w)
    /\ (local_fault env = None ->
        result = to_tuple <$> local_select env date_str (local_table w)).
Proof.
  intros Hfail.
  destruct (get_historical_data_local_result env date_str w)
    as (result & new & Hrun & Hresult & _).
  { unfold cloud_does_not_serve. tauto. }
  by exists result, new.
Qed.

Lemma cloud_failure_falls_back_to_local_witness :
  (cloud_read_fails (env_with configured (inl (broken PgExecute)) None)
   \/ ~ castable (env_with configured (inl (broken PgExecute)) None) (Some "2024-05-01"))
  /\ exists result new,
       get_historical_data (env_with configured (inl (broken PgExecute)) None)
                           (Some "2024-05-01") world0
       = (Returned result, add_events new world0)
       /\ (local_fault (env_with configured (inl (broken PgExecute)) None) = None ->
           result = to_tuple <$>
                      local_select (env_with configured (inl (broken PgExecute)) None)
                                   (Some "2024-05-01") (local_table world0)).
Proof.
  assert (Hfail : cloud_read_fails (env_with configured (inl (broken PgExecute)) None)
                  \/ ~ castable (env_with configured (inl (broken PgExecute)) None)
                                (Some "2024-05-01")).
  { left. right. eexists _, _, _. split; reflexivity. }
  split; [exact Hfail|].
  exact (cloud_failure_falls_back_to_local _ (Some "2024-05-01") world0 Hfail).
Defined.

Lemma calendar_date_castable env date_str :
  calendar_date env date_str -> castable env date_str.
Proof.
  unfold calendar_date, castable, truthy. destruct date_str as [day|]; [|done].
  intros (Hday & _ & Hcanon). rewrite decide_False by done. by rewrite Hcanon.
Qed.

(** C3: on the cloud path and on the local path alike, the history query
    returns all samples when the date filter is omitted, exactly the rows
    whose timestamp's date portion equals the filter when a calendar date
    is given, and in both cases the six fields of each row (timestamp,
    ultrasonic_cm, ir_left, ir_center, ir_right, line_state), ordered by
    timestamp ascending. *)
Theorem history_query_filters_and_orders env date_str w :
  calendar_date env date_str ->
  (cloud_read_succeeds env ->
   exists rows new,
     get_historical_data env date_str w
     = (Returned ((fun r => (timestamp r, ultrasonic_cm r, ir_left r,
                             ir_center r, ir_right r, line_state r)) <$> rows),
        add_events new w)
     /\ history_of (pg_date env) date_str (remote_table w) rows)
  /\ (CLOUD_DB_URL env = "" \/ cloud_read_fails env ->
      local_fault env = None ->
      exists rows new,
        get_historical_data env date_str w
        = (Returned ((fun r => (timestamp r, ultrasonic_cm r, ir_left r,
                                ir_center r, ir_right r, line_state r)) <$> rows),
           add_events new w)
        /\ history_of (sqlite_date env) date_str (row_sample <$> local_table w) rows).
Proof.
  intros Hdate. split.
  - intros Hok.
    destruct (get_historical_data_from_cloud env date_str w Hok
                (calendar_date_castable env date_str Hdate)) as (new & Hrun & _).
    eexists _, new. split; [exact Hrun|]. by apply cloud_select_history.
  - intros Hcloud Hlocal.
    destruct (get_historical_data_from_local env date_str w Hcloud Hlocal) as (new & Hrun).
    eexists _, new. split; [exact Hrun|]. by apply local_select_history.
Qed.

Lemma history_query_filters_and_orders_witness :
  calendar_date (env_with configured (inl healthy) None) (Some "2024-05-01")
  /\ (exists rows new,
        get_historical_data (env_with configured (inl healthy) None)
                            (Some "2024-05-01") world0
        = (Returned ((fun r => (timestamp r, ultrasonic_cm r, ir_left r,
                                ir_center r, ir_right r, line_state r)) <$> rows),
           add_events new world0)
        /\ history_of iso_date (Some "2024-05-01") (remote_table world0) rows)
  /\ (exists rows new,
        get_historical_data (env_with ∅ (inl healthy) None)
                            (Some "2024-05-01") world0
        = (Returned ((fun r => (timestamp r, ultrasonic_cm r, ir_left r,
                                ir_center r, ir_right r, line_state r)) <$> rows),
           add_events new world0)
        /\ history_of iso_date (Some "2024-05-01")
                      (row_sample <$> local_table world0) rows).
Proof.
  assert (Hdate : forall vars,
            calendar_date (env_with vars (inl healthy) None) (Some "2024-05-01")).
  { intros vars. split; [discriminate | split; reflexivity]. }
  split; [apply Hdate|]. split.
  - apply (history_query_filters_and_orders _ _ world0 (Hdate configured)).
    split; [discriminate|]. exists healthy. split; reflexivity.
  - apply (history_query_filters_and_orders _ _ world0 (Hdate ∅)); [|reflexivity].
    left. reflexivity.
Defined.

(** C7: when DATABASE_URL is absent from the environment, the URL is the
    empty string, and for every query [get_historical_data] is the local
    path alone: it makes no call towards the cloud and returns what the
    Local Store read yields. *)
Theorem no_database_url_is_local_only env date_str w :
  environ env !! "DATABASE_URL" = None ->
  CLOUD_DB_URL env = ""
  /\ get_historical_data env date_str w = local_path env date_str w
  /\ exists result new,
       get_historical_data env date_str w = (Returned result, add_events new w)
       /\ Forall (fun ev => is_cloud_event ev = false) new
       /\ (local_fault env = None ->
           result = to_tuple <$> local_select env date_str (local_table w)).
Proof.
  intros Habsent.
  assert (Hurl : CLOUD_DB_URL env = "") by (unfold CLOUD_DB_URL; by rewrite Habsent).
  assert (Hrun : get_historical_data env date_str w = local_path env date_str w).
  { rewrite get_historical_data_unfold. by rewrite cloud_path_unconfigured. }
  split; [done|]. split; [done|]. rewrite Hrun.
  destruct (local_fault env) as [[st e]|] eqn:Hlocal.
  - destruct (local_path_fails env date_str w st e Hlocal) as (new & -> & Hnew).
    by exists [], new.
  - destruct (local_path_succeeds env date_str w Hlocal) as (new & -> & Hnew).
    by eexists _, new.
Qed.

Lemma no_database_url_is_local_only_witness :
  environ (env_with ∅ (inl healthy) None) !! "DATABASE_URL" = None
  /\ CLOUD_DB_URL (env_with ∅ (inl healthy) None) = ""
  /\ get_historical_data (env_with ∅ (inl healthy) None) None world0
     = local_path (env_with ∅ (inl healthy) None) None world0.
Proof.
  assert (Habsent : environ (env_with ∅ (inl healthy) None) !! "DATABASE_URL" = None)
    by reflexivity.
  split; [exact Habsent|].
  destruct (no_database_url_is_local_only _ None world0 Habsent) as (Hurl & Hrun & _).
  split; [exact Hurl | exact Hrun].
Defined.

(** C8: when the URL is set, the connection succeeds and the cloud query
    succeeds (no call raises and PostgreSQL reads the filter as a date)
    but matches no row, [get_historical_data] returns the empty list and
    makes no call on the Local Store. *)
Theorem empty_cloud_result_is_returned env date_str w :
  cloud_read_succeeds env ->
  castable env date_str ->
  cloud_select env date_str (remote_table w) = [] ->
  exists new,
    get_historical_data env date_str w = (Returned [], add_events new w)
    /\ Forall (fun ev => is_local_event ev = false) new.
Proof.
  intros Hok Hcast Hempty.
  destruct (get_historical_data_from_cloud env date_str w Hok Hcast)
    as (new & Hrun & Hnew).
  rewrite Hempty in Hrun. by exists new.
Qed.

Lemma empty_cloud_result_is_returned_witness :
  cloud_read_succeeds (env_with configured (inl healthy) None)
  /\ castable (env_with configured (inl healthy) None) (Some "2024-05-03T12:00:00")
  /\ cloud_select (env_with configured (inl healthy) None)
                  (Some "2024-05-03T12:00:00") (remote_table world0) = []
  /\ exists new,
       get_historical_data (env_with configured (inl healthy) None)
                           (Some "2024-05-03T12:00:00") world0
       = (Returned [], add_events new world0)
       /\ Forall (fun ev => is_local_event ev = false) new.
Proof.
  assert (Hok : cloud_read_succeeds (env_with configured (inl healthy) None)).
  { split; [discriminate|]. exists healthy. split; reflexivity. }
  assert (Hcast : castable (env_with configured (inl healthy) None)
                    (Some "2024-05-03T12:00:00")) by (by eexists).
  assert (Hempty : cloud_select (env_with configured (inl healthy) None)
                     (Some "2024-05-03T12:00:00") (remote_table world0) = [])
    by reflexivity.
  split; [exact Hok|]. split; [exact Hcast|]. split; [exact Hempty|].
  exact (empty_cloud_result_is_returned _ _ world0 Hok Hcast Hempty).
Defined.

(** C9: [get_historical_data] never raises, whatever the environment and
    the filter; and when the cloud path does not serve the query (it is
    not configured, it fails, or the server refuses the filter as a
    date) and the Local Store read raises, it returns the empty list. *)
Theorem get_historical_data_never_raises env date_str w :
  (exists result new,
     get_historical_data env date_str w = (Returned result, add_events new w))
  /\ (forall st e,
        CLOUD_DB_URL env = "" \/ cloud_read_fails env \/ ~ castable env date_str ->
        local_fault env = Some (st, e) ->
        exists new,
          get_historical_data env date_str w = (Returned [], add_events new w)).
Proof.
  split.
  - apply get_historical_data_returns.
  - intros st e Hcloud Hlocal.
    destruct (get_historical_data_local_result env date_str w Hcloud)
      as (result & new & Hrun & _ & Hempty).
    exists new. rewrite Hrun, Hempty; [done | by rewrite Hlocal].
Qed.

Lemma get_historical_data_never_raises_witness :
  exists new,
    get_historical_data
      (env_with configured (inr "timeout") (Some (LiteExecute, Exception "disk I/O error")))
      None world0
    = (Returned [], add_events new world0).
Proof.
  apply (proj2 (get_historical_data_never_raises _ None world0)
           LiteExecute (Exception "disk I/O error")).
  - right. left. left. by eexists.
  - reflexivity.
Defined.

(** *** Examples: the history query run on the example data *)

Example history_from_cloud_all :
  fst (get_historical_data (env_with configured (inl healthy) None) None world0)
  = Returned [to_tuple s3; to_tuple s1].
Proof. vm_compute. reflexivity. Qed.

Example history_from_local_one_day :
  fst (get_historical_data (env_with configured (inr "no route to host") None)
                           (Some "2024-05-01") world0)
  = Returned [to_tuple s3; to_tuple s2].
Proof. vm_compute. reflexivity. Qed.

Example history_from_cloud_full_datetime :
  fst (get_historical_data (env_with configured (inl healthy) None)
                           (Some "2024-05-01T23:59:59") world0)
  = Returned [to_tuple s3].
Proof. vm_compute. reflexivity. Qed.

Example history_not_a_date_falls_back :
  let run := get_historical_data (env_with configured (inl healthy) None)
                                 (Some "last week") world0 in
  fst run = Returned []
  /\ events (snd run)
     = [ GetCloudConnection; Cloud PgImport; Cloud PgCursor; Cloud PgExecute;
         Print (CloudError (Exception "invalid input syntax for type date"));
         Cloud PgClose;
         Local LiteConnect; Local LiteCursor; Local LiteExecute; Local LiteFetchall;
         Local LiteClose; Print (LocalRetrieved 0 "last week") ].
Proof. vm_compute. split; reflexivity. Qed.

Example history_empty_filter_is_all :
  fst (get_historical_data (env_with ∅ (inl healthy) None) (Some "") world0)
  = Returned [to_tuple s3; to_tuple s2; to_tuple s1].
Proof. vm_compute. reflexivity. Qed.

Example history_trace_after_cloud_fault :
  events (snd (get_historical_data (env_with configured (inl (broken PgFetchall)) None)
                                   None world0))
  = [ GetCloudConnection; Cloud PgImport; Cloud PgCursor; Cloud PgExecute;
      Cloud PgFetchall; Print (CloudError (Exception "connection reset"));
      Cloud PgClose;
      Local LiteConnect; Local LiteCursor; Local LiteExecute; Local LiteFetchall;
      Local LiteClose; Print (LocalRetrieved 3 "ALL") ].
Proof. vm_compute. reflexivity. Qed.

(** *** The endpoint /api/historical-data *)

Lemma api_historical_data_body env date_str w records w' :
  get_historical_data env date_str w = (Returned records, w') ->
  api_historical_data env (Body date_str) w
  = (Returned (historical_data records, 200%Z), w').
Proof.
  intros Hrun. unfold api_historical_data. py_eval. by rewrite Hrun.
Qed.

(** C10: for every record the historical-data endpoint returns, a null
    [line_state] is serialized as the empty string, and a null
    [ultrasonic], [ir_left], [ir_center] or [ir_right] is serialized as
    null. *)
Theorem historical_data_null_serialization env date_str w :
  exists records new us ls cs rs states,
    get_historical_data env date_str w = (Returned records, add_events new w)
    /\ api_historical_data env (Body date_str) w
       = (Returned (JObj [ ("timestamps", JArr ((fun r => JStr (r0 r)) <$> records));
                           ("ultrasonic", JArr us); ("ir_left", JArr ls);
                           ("ir_center", JArr cs); ("ir_right", JArr rs);
                           ("line_state", JArr states) ], 200%Z),
          add_events new w)
    /\ forall i r,
         records !! i = Some r ->
         (r5 r = None -> states !! i = Some (JStr ""))
         /\ (r1 r = None -> us !! i = Some JNull)
         /\ (r2 r = None -> ls !! i = Some JNull)
         /\ (r3 r = None -> cs !! i = Some JNull)
         /\ (r4 r = None -> rs !! i = Some JNull).
Proof.
  destruct (get_historical_data_returns env date_str w) as (records & new & Hrun).
  exists records, new. eexists _, _, _, _, _.
  split; [exact Hrun|]. split.
  - rewrite (api_historical_data_body _ _ _ _ _ Hrun). reflexivity.
  - intros i r Hi. rewrite !list_lookup_fmap, Hi. cbn.
    repeat split; intros ->; reflexivity.
Qed.

Lemma historical_data_null_serialization_witness :
  exists (records : list HistoryTuple) (us states : list json),
    fst (get_historical_data (env_with configured (inr "no route to host") None)
                             (Some "2024-05-01") world0) = Returned records
    /\ records !! 1 = Some (to_tuple s2)
    /\ states !! 1 = Some (JStr "")
    /\ us !! 1 = Some JNull.
Proof.
  destruct (historical_data_null_serialization
              (env_with configured (inr "no route to host") None)
              (Some "2024-05-01") world0)
    as (records & new & us & ls & cs & rs & states & Hrun & _ & Hnull).
  assert (Hrecords : records = [to_tuple s3; to_tuple s2]).
  { vm_compute in Hrun. injection Hrun as <- _. reflexivity. }
  exists records, us, states.
  assert (Hi : records !! 1 = Some (to_tuple s2)) by (rewrite Hrecords; reflexivity).
  destruct (Hnull 1 (to_tuple s2) Hi) as (Hstate & Hus & _).
  split; [by rewrite Hrun|]. split; [exact Hi|].
  split; [apply Hstate | apply Hus]; reflexivity.
Defined.

(** *** The endpoint /api/live-data *)

Section IngestionFacts.

Variable get_adafruit_data : string -> option string.
Variable py_float : string -> option float.
Variable py_int : string -> option Z.
Variable now : string.
Variable save_to_local_db : Sample -> M unit.

Lemma convert_cases {A} (conv : string -> option A) v :
  (exists x, convert conv v = ret x) \/ convert conv v = raise (Exception "ValueError").
Proof.
  unfold convert. destruct (truthy v) as [s|]; [|by eauto].
  destruct (conv s); by eauto.
Qed.

(** The inner [try] block either calls [save_to_local_db] on a sample
    stamped [now], or raises ValueError before the call. *)
Lemma store_sample_cases ultrasonic ir_left' ir_center' ir_right' line_state' :
  (exists s, timestamp s = now
             /\ store_sample py_float py_int save_to_local_db now
                  ultrasonic ir_left' ir_center' ir_right' line_state'
                = save_to_local_db s)
  \/ store_sample py_float py_int save_to_local_db now
       ultrasonic ir_left' ir_center' ir_right' line_state'
     = raise (Exception "ValueError").
Proof.
  unfold store_sample.
  destruct (convert_cases py_float ultrasonic) as [[u ->]| ->]; [|by right].
  destruct (convert_cases py_int ir_left') as [[l ->]| ->]; [|by right].
  destruct (convert_cases py_int ir_center') as [[c ->]| ->]; [|by right].
  destruct (convert_cases py_int ir_right') as [[r ->]| ->]; [|by right].
  left. eexists. split; [|reflexivity]. reflexivity.
Qed.

Lemma api_live_data_unfold w :
  api_live_data get_adafruit_data py_float py_int now save_to_local_db w =
  match store_sample py_float py_int save_to_local_db now
          (get_adafruit_data "ultrasonic_cm") (get_adafruit_data "ir_left")
          (get_adafruit_data "ir_center") (get_adafruit_data "ir_right")
          (get_adafruit_data "line_state") w with
  | (Returned _, w') => (Returned (polled get_adafruit_data now), w')
  | (Raised e, w') => (Returned (polled get_adafruit_data now), add_event (Print (SaveWarning e)) w')
  end.
Proof.
  unfold api_live_data, polled. py_eval.
  destruct (store_sample _ _ _ _ _ _ _ _ _ w) as [[[]|e] w']; reflexivity.
Qed.

(** C6: for every live-data request and every behaviour of
    [save_to_local_db], the endpoint returns status 200 with the seven
    polled fields (each feed value as text, or null when the feed gave
    none, and the timestamp); and whenever the call of
    [save_to_local_db] on the converted sample raises, in whatever
    state it leaves the world, the exception is caught, reported by a
    warning, and the response is that same one. *)
Theorem local_write_failure_is_caught w :
  (exists w',
     api_live_data get_adafruit_data py_float py_int now save_to_local_db w
     = (Returned
          (JObj [ ("ultrasonic_cm", from_option JStr JNull (get_adafruit_data "ultrasonic_cm"));
                  ("ir_left", from_option JStr JNull (get_adafruit_data "ir_left"));
                  ("ir_center", from_option JStr JNull (get_adafruit_data "ir_center"));
                  ("ir_right", from_option JStr JNull (get_adafruit_data "ir_right"));
                  ("line_state", from_option JStr JNull (get_adafruit_data "line_state"));
                  ("camera_motion", from_option JStr JNull (get_adafruit_data "camera_motion"));
                  ("timestamp", JStr now) ], 200%Z), w'))
  /\ (forall u l c r e w1,
        convert py_float (get_adafruit_data "ultrasonic_cm") = ret u ->
        convert py_int (get_adafruit_data "ir_left") = ret l ->
        convert py_int (get_adafruit_data "ir_center") = ret c ->
        convert py_int (get_adafruit_data "ir_right") = ret r ->
        save_to_local_db
          {| timestamp := now; ultrasonic_cm := u; ir_left := l; ir_center := c;
             ir_right := r; line_state := truthy (get_adafruit_data "line_state") |} w
        = (Raised e, w1) ->
        api_live_data get_adafruit_data py_float py_int now save_to_local_db w
        = (Returned
             (JObj [ ("ultrasonic_cm", from_option JStr JNull (get_adafruit_data "ultrasonic_cm"));
                     ("ir_left", from_option JStr JNull (get_adafruit_data "ir_left"));
                     ("ir_center", from_option JStr JNull (get_adafruit_data "ir_center"));
                     ("ir_right", from_option JStr JNull (get_adafruit_data "ir_right"));
                     ("line_state", from_option JStr JNull (get_adafruit_data "line_state"));
                     ("camera_motion", from_option JStr JNull (get_adafruit_data "camera_motion"));
                     ("timestamp", JStr now) ], 200%Z),
           add_event (Print (SaveWarning e)) w1)).
Proof.
  split.
  - rewrite api_live_data_unfold.
    destruct (store_sample _ _ _ _ _ _ _ _ _ w) as [[[]|e] w']; by eexists.
  - intros u l c r e w1 Hu Hl Hc Hr Hsave. rewrite api_live_data_unfold.
    unfold store_sample. rewrite Hu, Hl, Hc, Hr.
    py_eval. rewrite Hsave. reflexivity.
Qed.

End IngestionFacts.

Lemma local_write_failure_is_caught_witness :
  save_partial
    {| timestamp := "2024-05-02T10:00:00"; ultrasonic_cm := Some 17%float;
       ir_left := Some 1%Z; ir_center := None; ir_right := None;
       line_state := Some "left" |} world0
  = (Raised (Exception "database is locked"),
     set_local_table
       (local_table world0 ++
        [{| row_id := LocalStore.next_id (local_table world0);
            row_sample :=
              {| timestamp := "2024-05-02T10:00:00"; ultrasonic_cm := Some 17%float;
                 ir_left := Some 1%Z; ir_center := None; ir_right := None;
                 line_state := Some "left" |};
            synced := false |}]) world0)
  /\ api_live_data feed float_table int_table "2024-05-02T10:00:00" save_partial world0
     = (Returned
          (JObj [ ("ultrasonic_cm", JStr "17.0"); ("ir_left", JStr "1");
                  ("ir_center", JNull); ("ir_right", JNull);
                  ("line_state", JStr "left"); ("camera_motion", JNull);
                  ("timestamp", JStr "2024-05-02T10:00:00") ], 200%Z),
        add_event (Print (SaveWarning (Exception "database is locked")))
          (set_local_table
             (local_table world0 ++
              [{| row_id := LocalStore.next_id (local_table world0);
                  row_sample :=
                    {| timestamp := "2024-05-02T10:00:00"; ultrasonic_cm := Some 17%float;
                       ir_left := Some 1%Z; ir_center := None; ir_right := None;
                       line_state := Some "left" |};
                  synced := false |}]) world0)).
Proof.
  assert (Hsave :
    save_partial
      {| timestamp := "2024-05-02T10:00:00"; ultrasonic_cm := Some 17%float;
         ir_left := Some 1%Z; ir_center := None; ir_right := None;
         line_state := truthy (feed "line_state") |} world0
    = (Raised (Exception "database is locked"),
       set_local_table
         (local_table world0 ++
          [{| row_id := LocalStore.next_id (local_table world0);
              row_sample :=
                {| timestamp := "2024-05-02T10:00:00"; ultrasonic_cm := Some 17%float;
                   ir_left := Some 1%Z; ir_center := None; ir_right := None;
                   line_state := Some "left" |};
              synced := false |}]) world0)) by reflexivity.
  split; [exact Hsave|].
  exact (proj2 (local_write_failure_is_caught feed float_table int_table
                  "2024-05-02T10:00:00" save_partial world0)
           (Some 17%float) (Some 1%Z) None None _ _
           eq_refl eq_refl eq_refl eq_refl Hsave).
Defined.

Example live_data_with_failing_store :
  api_live_data feed float_table int_table "2024-05-02T10:00:00" disk_full world0
  = (Returned (JObj [ ("ultrasonic_cm", JStr "17.0"); ("ir_left", JStr "1");
                      ("ir_center", JNull); ("ir_right", JNull);
                      ("line_state", JStr "left"); ("camera_motion", JNull);
                      ("timestamp", JStr "2024-05-02T10:00:00") ], 200%Z),
     add_event (Print (SaveWarning (Exception "disk full"))) world0).
Proof. vm_compute. reflexivity. Qed.

(** *** The remote write *)

Section CloudStoreFacts.

Import CloudStore.

Implicit Types (s a : Sample) (t u : list Sample) (l : list Sample) (k : string).

Lemma writeBatch_cons a l t : writeBatch (a :: l) t = writeBatch l (upsert a t).
Proof. reflexivity. Qed.

Lemma writeBatch_snoc l s t : writeBatch (l ++ [s]) t = upsert s (writeBatch l t).
Proof. unfold writeBatch. by rewrite foldl_app. Qed.

Lemma elem_of_upsert_keys s t k :
  k ∈ timestamp <$> upsert s t <-> k ∈ timestamp <$> t \/ k = timestamp s.
Proof.
  induction t as [|r t IH]; cbn.
  - rewrite list_elem_of_singleton, elem_of_nil. tauto.
  - destruct (decide (timestamp r = timestamp s)) as [Heq|Hne]; cbn.
    + rewrite !elem_of_cons, Heq. tauto.
    + rewrite !elem_of_cons, IH. tauto.
Qed.

Lemma elem_of_writeBatch_keys l t k :
  k ∈ timestamp <$> writeBatch l t <-> k ∈ timestamp <$> t \/ k ∈ timestamp <$> l.
Proof.
  revert t. induction l as [|a l IH]; intros t.
  - cbn. rewrite elem_of_nil. tauto.
  - rewrite writeBatch_cons, IH, elem_of_upsert_keys, fmap_cons, elem_of_cons. tauto.
Qed.

Lemma upsert_NoDup s t :
  NoDup (timestamp <$> t) -> NoDup (timestamp <$> upsert s t).
Proof.
  induction t as [|r t IH]; cbn; intros Hnd.
  - apply NoDup_singleton.
  - apply NoDup_cons in Hnd as [Hr Hnd].
    destruct (decide (timestamp r = timestamp s)) as [Heq|Hne]; cbn.
    + apply NoDup_cons. by rewrite <- Heq.
    + apply NoDup_cons. split; [|by apply IH].
      rewrite elem_of_upsert_keys. intros [?|?]; [done | congruence].
Qed.

Lemma writeBatch_NoDup l t :
  NoDup (timestamp <$> t) -> NoDup (timestamp <$> writeBatch l t).
Proof.
  revert t. induction l as [|a l IH]; intros t Hnd; [done|].
  rewrite writeBatch_cons. by apply IH, upsert_NoDup.
Qed.

(** Two upserts on one timestamp: the later one wins. *)
Lemma upsert_upsert_same a s t :
  timestamp a = timestamp s -> upsert a (upsert s t) = upsert a t.
Proof.
  intros Hkey. induction t as [|r t IH]; cbn.
  - case_decide; congruence.
  - destruct (decide (timestamp r = timestamp s)) as [Heq|Hne]; cbn.
    + repeat case_decide; congruence.
    + case_decide; [congruence | by rewrite IH].
Qed.

(** Upserts on different timestamps commute when the first replaces a
    row. *)
Lemma upsert_upsert_comm a s t :
  timestamp a <> timestamp s ->
  timestamp a ∈ timestamp <$> t ->
  upsert a (upsert s t) = upsert s (upsert a t).
Proof.
  intros Hkey. induction t as [|r t IH]; cbn; intros Hin.
  - by apply elem_of_nil in Hin.
  - destruct (decide (timestamp r = timestamp s)) as [Hs|Hs];
      destruct (decide (timestamp r = timestamp a)) as [Ha|Ha]; cbn.
    + congruence.
    + repeat case_decide; congruence.
    + repeat case_decide; congruence.
    + repeat case_decide; try congruence. rewrite IH; [done|].
      apply elem_of_cons in Hin as [?|?]; [congruence | done].
Qed.

Lemma upsert_writeBatch_upsert l s u :
  (forall a, a ∈ l -> timestamp a ∈ timestamp <$> u) ->
  upsert s (writeBatch l (upsert s u)) = upsert s (writeBatch l u).
Proof.
  revert u. induction l as [|a l IH]; intros u Hin.
  - cbn. by apply upsert_upsert_same.
  - rewrite !writeBatch_cons.
    destruct (decide (timestamp a = timestamp s)) as [Heq|Hne].
    + by rewrite upsert_upsert_same.
    + rewrite upsert_upsert_comm; [|done | apply Hin; by left].
      apply IH. intros b Hb. apply elem_of_upsert_keys. left. apply Hin. by right.
Qed.

(** Sending a batch again changes nothing. *)
Lemma writeBatch_idempotent l t :
  writeBatch l (writeBatch l t) = writeBatch l t.
Proof.
  induction l as [|s l IH] using rev_ind; [done|].
  rewrite !writeBatch_snoc, upsert_writeBatch_upsert, IH; [done|].
  intros a Ha. apply elem_of_writeBatch_keys. right. by apply list_elem_of_fmap_2.
Qed.

Lemma replay_once n l t : replay (S n) l t = writeBatch l t.
Proof.
  induction n as [|n IH]; [done|].
  change (replay (S (S n)) l t) with (writeBatch l (replay (S n) l t)).
  by rewrite IH, writeBatch_idempotent.
Qed.

Lemma rows_at_absent k t : k ∉ timestamp <$> t -> rows_at k t = 0.
Proof.
  unfold rows_at. induction t as [|r t IH]; intros Hk; [done|].
  rewrite fmap_cons in Hk. apply not_elem_of_cons in Hk as [Hr Hk].
  rewrite filter_cons_False by congruence. by apply IH.
Qed.

Lemma rows_at_unique k t :
  NoDup (timestamp <$> t) -> k ∈ timestamp <$> t -> rows_at k t = 1.
Proof.
  unfold rows_at. induction t as [|r t IH]; intros Hnd Hk.
  - by apply elem_of_nil in Hk.
  - rewrite fmap_cons in Hnd, Hk. apply NoDup_cons in Hnd as [Hr Hnd].
    destruct (decide (timestamp r = k)) as [<-|Hne].
    + rewrite filter_cons_True by done. cbn. f_equal. by apply (rows_at_absent (timestamp r)).
    + rewrite filter_cons_False by done.
      apply elem_of_cons in Hk as [?|?]; [congruence | by apply IH].
Qed.

End CloudStoreFacts.

(** C2: after any number of repeated [writeBatch] calls carrying the same
    samples, on a remote table keyed by timestamp, the table is what one
    call leaves, and it holds exactly one row for each timestamp of the
    batch or of the table before, and none for any other. *)
Theorem replayed_writeBatch_one_row_per_timestamp samples table n :
  NoDup (timestamp <$> table) ->
  CloudStore.replay (S n) samples table = CloudStore.writeBatch samples table
  /\ NoDup (timestamp <$> CloudStore.replay (S n) samples table)
  /\ forall ts,
       (ts ∈ timestamp <$> samples ++ table ->
        CloudStore.rows_at ts (CloudStore.replay (S n) samples table) = 1)
       /\ (ts ∉ timestamp <$> samples ++ table ->
           CloudStore.rows_at ts (CloudStore.replay (S n) samples table) = 0).
Proof.
  intros Hnd. rewrite replay_once.
  split; [done|]. split; [by apply writeBatch_NoDup|].
  intros ts. rewrite fmap_app, elem_of_app. split; intros Hts.
  - apply rows_at_unique; [by apply writeBatch_NoDup|].
    apply elem_of_writeBatch_keys. tauto.
  - apply rows_at_absent. rewrite elem_of_writeBatch_keys. tauto.
Qed.

Lemma replayed_writeBatch_one_row_per_timestamp_witness :
  NoDup (timestamp <$> [s3])
  /\ CloudStore.replay 3 [s1; s2; s2_again] [s3] = [s3; s1; s2_again]
  /\ CloudStore.rows_at "2024-05-01T09:30:00" (CloudStore.replay 3 [s1; s2; s2_again] [s3]) = 1.
Proof.
  assert (Hnd : NoDup (timestamp <$> [s3])) by apply NoDup_singleton.
  destruct (replayed_writeBatch_one_row_per_timestamp [s1; s2; s2_again] [s3] 2 Hnd)
    as (Hreplay & _ & Hrows).
  split; [exact Hnd|]. split.
  - rewrite Hreplay. reflexivity.
  - apply Hrows. cbn. rewrite !elem_of_cons. tauto.
Defined.

(** *** The sync worker *)

Section SyncWorkerFacts.

Variable sync_to_cloud : M unit.

(** A tick on which the prober reports unreachable: the probe, then
    the sleep, and nothing else. *)
Lemma sync_iteration_unreachable w :
  sync_iteration sync_to_cloud false w
  = (Returned (), add_events [CheckInternet false; Sleep 300] w).
Proof. reflexivity. Qed.

Lemma ingest_stored s w :
  ingest s None w
  = (Returned (),
     set_local_table
       (local_table w
        ++ [{| row_id := LocalStore.next_id (local_table w);
               row_sample := s; synced := false |}]) w).
Proof. reflexivity. Qed.

Lemma ingest_failed s e w :
  ingest s (Some e) w = (Returned (), add_events [Print (SaveWarning e)] w).
Proof. reflexivity. Qed.

Lemma offline_cons a acts : offline (a :: acts) -> offline acts.
Proof. intros Hoff up Hup. apply Hoff. by right. Qed.

Lemma run_offline acts w :
  offline acts ->
  exists new rows,
    local_table (run sync_to_cloud true acts w) = local_table w ++ rows
    /\ remote_table (run sync_to_cloud true acts w) = remote_table w
    /\ sync_status (run sync_to_cloud true acts w) = sync_status w
    /\ events (run sync_to_cloud true acts w) = events w ++ new
    /\ (SyncToCloud ∉ new)
    /\ (row_sample <$> rows) = inserted acts
    /\ Forall (fun r => synced r = false) rows.
Proof.
  revert w. induction acts as [|a acts IH]; intros w Hoff.
  - exists [], []. cbn. rewrite !app_nil_r. repeat split; [apply not_elem_of_nil | done].
  - specialize (fun w' => IH w' (offline_cons _ _ Hoff)).
    destruct a as [up|s [e|]].
    + rewrite (Hoff up) by left. cbn [run]. rewrite sync_iteration_unreachable.
      destruct (IH (add_events [CheckInternet false; Sleep 300] w))
        as (new & rows & Hl & Hr & Hs & He & Hnew & Hrows & Hflag).
      exists ([CheckInternet false; Sleep 300] ++ new), rows.
      rewrite Hl, Hr, Hs, He. repeat split; try done.
      * rewrite events_add_events. by rewrite <- app_assoc.
      * rewrite elem_of_app, !elem_of_cons, elem_of_nil.
        intros [[?|[?|[]]]|?]; done.
    + cbn [run]. rewrite ingest_failed. cbn [snd].
      destruct (IH (add_events [Print (SaveWarning e)] w))
        as (new & rows & Hl & Hr & Hs & He & Hnew & Hrows & Hflag).
      exists ([Print (SaveWarning e)] ++ new), rows.
      rewrite Hl, Hr, Hs, He. repeat split; try done.
      * rewrite events_add_events. by rewrite <- app_assoc.
      * rewrite elem_of_app, !elem_of_cons, elem_of_nil.
        intros [[?|[]]|?]; done.
    + cbn [run]. rewrite ingest_stored. cbn [snd].
      destruct (IH (set_local_table
                      (local_table w
                       ++ [{| row_id := LocalStore.next_id (local_table w);
                              row_sample := s; synced := false |}]) w))
        as (new & rows & Hl & Hr & Hs & He & Hnew & Hrows & Hflag).
      exists new,
        ({| row_id := LocalStore.next_id (local_table w);
            row_sample := s; synced := false |} :: rows).
      rewrite Hl, Hr, Hs, He. cbn. repeat split; try done.
      * by rewrite <- app_assoc.
      * by rewrite Hrows.
      * by constructor.
Qed.

Lemma sync_loop_cons up later w :
  sync_loop sync_to_cloud (up :: later) w =
  match sync_iteration sync_to_cloud up w with
  | (Returned _, w') => sync_loop sync_to_cloud later w'
  | (Raised e, w') => (Raised e, w')
  end.
Proof. reflexivity. Qed.

(** The loop over ticks that all find the network unreachable: a
    probe and a sleep per tick. *)
Lemma sync_loop_unreachable network w :
  Forall (fun up => up = false) network ->
  sync_loop sync_to_cloud network w
  = (Returned (),
     add_events (network ≫= fun _ => [CheckInternet false; Sleep 300]) w).
Proof.
  intros Hoff. revert w.
  induction Hoff as [|up network -> _ IH]; intros w; [done|].
  rewrite sync_loop_cons, sync_iteration_unreachable, IH, add_events_app.
  reflexivity.
Qed.

Lemma run_dead_worker network w :
  run sync_to_cloud false (Tick <$> network) w = w.
Proof. induction network as [|up network IH]; [done | exact IH]. Qed.

(** With ticks alone, [run] ends in the world in which [sync_loop]
    ends. *)
Lemma run_ticks network w :
  run sync_to_cloud true (Tick <$> network) w
  = snd (sync_loop sync_to_cloud network w).
Proof.
  revert w. induction network as [|up network IH]; intros w; [done|].
  rewrite fmap_cons, sync_loop_cons. cbn [run].
  destruct (sync_iteration sync_to_cloud up w) as [[[]|e] w'].
  - apply IH.
  - apply run_dead_worker.
Qed.

End SyncWorkerFacts.

(** C4: if the prober reports unreachable on every tick, then however
    the ticks of the sync loop and the ingestions interleave, the loop
    never calls [sync_to_cloud], and the Local Store afterwards is the
    Local Store before followed by the rows that the successful inserts
    added, in order, each unsynced; the remote table and the sync status
    are untouched. *)
Theorem offline_worker_never_syncs (sync_to_cloud : M unit) acts w :
  offline acts ->
  exists new rows,
    events (run sync_to_cloud true acts w) = events w ++ new
    /\ (SyncToCloud ∉ new)
    /\ local_table (run sync_to_cloud true acts w) = local_table w ++ rows
    /\ (row_sample <$> rows) = inserted acts
    /\ Forall (fun r => synced r = false) rows
    /\ remote_table (run sync_to_cloud true acts w) = remote_table w
    /\ sync_status (run sync_to_cloud true acts w) = sync_status w.
Proof.
  intros Hoff.
  destruct (run_offline sync_to_cloud acts w Hoff)
    as (new & rows & Hl & Hr & Hs & He & Hnew & Hrows & Hflag).
  by exists new, rows.
Qed.

Lemma offline_worker_never_syncs_witness :
  offline [Tick false; Insert s4 None; Tick false; Insert s2_again (Some (Exception "disk full"))]
  /\ exists new rows,
       events (run (SyncEngine.sync_to_cloud online) true
                 [Tick false; Insert s4 None; Tick false;
                  Insert s2_again (Some (Exception "disk full"))] world0)
       = events world0 ++ new
       /\ (SyncToCloud ∉ new)
       /\ local_table (run (SyncEngine.sync_to_cloud online) true
                         [Tick false; Insert s4 None; Tick false;
                          Insert s2_again (Some (Exception "disk full"))] world0)
          = local_table world0 ++ rows
       /\ (row_sample <$> rows) = [s4].
Proof.
  assert (Hoff : offline [Tick false; Insert s4 None; Tick false;
                          Insert s2_again (Some (Exception "disk full"))]).
  { intros up Hup. rewrite !elem_of_cons, elem_of_nil in Hup.
    destruct Hup as [Hup|[Hup|[Hup|[Hup|[]]]]]; by inversion Hup. }
  split; [exact Hoff|].
  destruct (offline_worker_never_syncs (SyncEngine.sync_to_cloud online) _ world0 Hoff)
    as (new & rows & He & Hnew & Hl & Hrows & _).
  by exists new, rows.
Defined.

Example online_worker_syncs :
  let w := run (SyncEngine.sync_to_cloud online) true [Tick true] world0 in
  remote_table w = [s1; s3; s2]
  /\ synced <$> local_table w = [true; true; true]
  /\ sync_status w = Some (SyncEngine.succeeded 3)
  /\ events w = [CheckInternet true; SyncToCloud; GetCloudConnection; Sleep 300].
Proof. vm_compute. repeat split. Qed.

(** *** A tick without connectivity *)

(** C5, as stated, fails: after a tick on which the prober reports
    unreachable no such status record exists. *)
Lemma unreachable_tick_records_no_status :
  ~ unreachable_recorded
      (snd (sync_iteration (SyncEngine.sync_to_cloud online) false world0)).
Proof. intros (st & Hst & _). vm_compute in Hst. discriminate Hst. Qed.

(** C5, amended: on every tick where the prober reports unreachable the
    cycle is skipped: the iteration makes the probe and sleeps 300
    seconds, [sync_to_cloud] is not called, and both tables and the sync
    status are left as they were; no status is recorded. *)
Theorem unreachable_tick_is_skipped (sync_to_cloud : M unit) w :
  sync_iteration sync_to_cloud false w
  = (Returned (), add_events [CheckInternet false; Sleep 300] w)
  /\ sync_status (snd (sync_iteration sync_to_cloud false w)) = sync_status w
  /\ local_table (snd (sync_iteration sync_to_cloud false w)) = local_table w
  /\ remote_table (snd (sync_iteration sync_to_cloud false w)) = remote_table w.
Proof. repeat split. Qed.

(** ** The Adafruit IO cache *)

(** A feed name that is not empty comes from a lookup that returned a
    truthy value. *)
Lemma feed_name_of_nonempty cfg feed_key :
  feed_name_of cfg feed_key <> "" ->
  exists feed_name,
    feeds_get cfg feed_key = Returned feed_name
    /\ json_truthy feed_name = true
    /\ name_text cfg feed_name = feed_name_of cfg feed_key.
Proof.
  unfold feed_name_of. destruct (feeds_get cfg feed_key) as [feed_name|e]; [|done].
  destruct (json_truthy feed_name) eqn:Htruthy; [|done]. intros _. by exists feed_name.
Qed.

(** On an object the lookup returns; on any other value it raises. *)
Lemma feeds_get_object cfg feed_key members :
  AIO_FEEDS cfg = JObj members ->
  feeds_get cfg feed_key = Returned (default (JStr "") (dict_get members feed_key)).
Proof. intros Hfeeds. unfold feeds_get. by rewrite Hfeeds. Qed.

(** A call that is not served from the cache and finds a feed name:
    what it returns and the state it leaves, by the reply. *)
Lemma get_adafruit_data_fetch cfg net feed_key feed_name b :
  no_credentials cfg = false ->
  cache_hit feed_key (time_time net (clock_reads b)) b = None ->
  feeds_get cfg feed_key = Returned feed_name ->
  json_truthy feed_name = true ->
  get_adafruit_data cfg net feed_key b =
  let asked :=
    {| _adafruit_cache := _adafruit_cache b;
       _adafruit_cache_time := _adafruit_cache_time b;
       _last_command_time := _last_command_time b;
       clock_reads := S (clock_reads b);
       requests := S (requests b);
       calls := calls b
                ++ [HttpGet (feed_url cfg (name_text cfg feed_name) "/data/last")] |} in
  match http_reply net (requests b) with
  | Replied status (Returned value) =>
      if decide (status = 200%Z) then
        (Returned value,
         {| _adafruit_cache := <[feed_key := value]> (_adafruit_cache b);
            _adafruit_cache_time :=
              <[feed_key := time_time net (clock_reads b)]> (_adafruit_cache_time b);
            _last_command_time := _last_command_time b;
            clock_reads := S (clock_reads b);
            requests := S (requests b);
            calls := calls asked |})
      else if decide (status = 429%Z) then (Returned (cache_get feed_key b), asked)
      else (Returned None, asked)
  | Replied status (Raised e) =>
      if decide (status = 200%Z) then (Returned (cache_get feed_key b), asked)
      else if decide (status = 429%Z) then (Returned (cache_get feed_key b), asked)
      else (Returned None, asked)
  | NoReply e => (Returned (cache_get feed_key b), asked)
  end.
Proof.
  intros Hcred Hmiss Hfeed Htruthy. unfold get_adafruit_data, cache_get.
  unfold cache_hit in Hmiss |- *. rewrite Hcred. b_eval.
  rewrite Hmiss, Hfeed, Htruthy. cbn [negb]. b_eval.
  destruct (http_reply net (requests b)) as [status [value|e]|e]; b_eval;
    repeat (case_decide; b_eval); try reflexivity; congruence.
Qed.

(** A call that is not served from the cache and finds no feed name:
    it makes no request; when the lookup raised it returns what is
    cached for the feed, otherwise None. *)
Lemma get_adafruit_data_no_feed cfg net feed_key b :
  no_credentials cfg = false ->
  cache_hit feed_key (time_time net (clock_reads b)) b = None ->
  (forall feed_name, feeds_get cfg feed_key = Returned feed_name ->
                     json_truthy feed_name = false) ->
  get_adafruit_data cfg net feed_key b =
  (Returned (match feeds_get cfg feed_key with
             | Returned _ => None
             | Raised _ => cache_get feed_key b
             end),
   snd (time_now net b)).
Proof.
  intros Hcred Hmiss Hfeed. unfold get_adafruit_data, cache_get.
  unfold cache_hit in Hmiss |- *. rewrite Hcred. b_eval. rewrite Hmiss.
  destruct (feeds_get cfg feed_key) as [feed_name|e]; [|done].
  by rewrite (Hfeed feed_name eq_refl).
Qed.

(** A call that is not served from the cache and gets a reply: what it
    returns and the state it leaves, by the reply. *)
Lemma get_adafruit_data_miss cfg net feed_key b :
  no_credentials cfg = false ->
  cache_hit feed_key (time_time net (clock_reads b)) b = None ->
  feed_name_of cfg feed_key <> "" ->
  get_adafruit_data cfg net feed_key b =
  let asked :=
    {| _adafruit_cache := _adafruit_cache b;
       _adafruit_cache_time := _adafruit_cache_time b;
       _last_command_time := _last_command_time b;
       clock_reads := S (clock_reads b);
       requests := S (requests b);
       calls := calls b
                ++ [HttpGet (feed_url cfg (feed_name_of cfg feed_key) "/data/last")] |} in
  match http_reply net (requests b) with
  | Replied status (Returned value) =>
      if decide (status = 200%Z) then
        (Returned value,
         {| _adafruit_cache := <[feed_key := value]> (_adafruit_cache b);
            _adafruit_cache_time :=
              <[feed_key := time_time net (clock_reads b)]> (_adafruit_cache_time b);
            _last_command_time := _last_command_time b;
            clock_reads := S (clock_reads b);
            requests := S (requests b);
            calls := calls asked |})
      else if decide (status = 429%Z) then (Returned (cache_get feed_key b), asked)
      else (Returned None, asked)
  | Replied status (Raised e) =>
      if decide (status = 200%Z) then (Returned (cache_get feed_key b), asked)
      else if decide (status = 429%Z) then (Returned (cache_get feed_key b), asked)
      else (Returned None, asked)
  | NoReply e => (Returned (cache_get feed_key b), asked)
  end.
Proof.
  intros Hcred Hmiss Hfeed.
  destruct (feed_name_of_nonempty cfg feed_key Hfeed) as (feed_name & Hget & Htruthy & <-).
  by apply get_adafruit_data_fetch.
Qed.

Lemma cache_hit_fresh feed_key now v t b :
  _adafruit_cache b !! feed_key = Some v ->
  _adafruit_cache_time b !! feed_key = Some t ->
  PrimFloat.ltb (PrimFloat.sub now t) ADAFRUIT_CACHE_TTL = true ->
  cache_hit feed_key now b = Some v.
Proof. intros Hv Ht Hage. unfold cache_hit. rewrite Hv, Ht. cbn. by rewrite Hage. Qed.

Lemma get_adafruit_data_hit cfg net feed_key v b :
  no_credentials cfg = false ->
  cache_hit feed_key (time_time net (clock_reads b)) b = Some v ->
  get_adafruit_data cfg net feed_key b =
  (Returned v,
   {| _adafruit_cache := _adafruit_cache b;
      _adafruit_cache_time := _adafruit_cache_time b;
      _last_command_time := _last_command_time b;
      clock_reads := S (clock_reads b);
      requests := requests b;
      calls := calls b |}).
Proof.
  intros Hcred Hhit. unfold get_adafruit_data.
  unfold cache_hit in Hhit |- *. rewrite Hcred. b_eval. by rewrite Hhit.
Qed.

(** X1: a value cached less than ten seconds ago is returned as it is:
    no HTTP request is made and the cache is left alone. *)
Theorem get_adafruit_data_serves_fresh_cache cfg net feed_key v t b :
  no_credentials cfg = false ->
  _adafruit_cache b !! feed_key = Some v ->
  _adafruit_cache_time b !! feed_key = Some t ->
  PrimFloat.ltb (PrimFloat.sub (time_time net (clock_reads b)) t) ADAFRUIT_CACHE_TTL = true ->
  exists b',
    get_adafruit_data cfg net feed_key b = (Returned v, b')
    /\ requests b' = requests b
    /\ calls b' = calls b
    /\ _adafruit_cache b' = _adafruit_cache b
    /\ _adafruit_cache_time b' = _adafruit_cache_time b.
Proof.
  intros Hcred Hv Ht Hage.
  rewrite (get_adafruit_data_hit cfg net feed_key v b Hcred)
    by (by apply cache_hit_fresh with t).
  by eexists.
Qed.

(** X2: a value fetched with status 200 is cached: the next call for the
    same feed within ten seconds returns that value without a second
    request. *)
Theorem get_adafruit_data_fetch_then_hit cfg net feed_key v b :
  no_credentials cfg = false ->
  feed_name_of cfg feed_key <> "" ->
  cache_hit feed_key (time_time net (clock_reads b)) b = None ->
  http_reply net (requests b) = Replied 200 (Returned v) ->
  PrimFloat.ltb (PrimFloat.sub (time_time net (S (clock_reads b)))
                               (time_time net (clock_reads b)))
                ADAFRUIT_CACHE_TTL = true ->
  exists b1 b2,
    get_adafruit_data cfg net feed_key b = (Returned v, b1)
    /\ get_adafruit_data cfg net feed_key b1 = (Returned v, b2)
    /\ requests b2 = S (requests b)
    /\ calls b2 = calls b
                  ++ [HttpGet (feed_url cfg (feed_name_of cfg feed_key) "/data/last")].
Proof.
  intros Hcred Hfeed Hmiss Hreply Hage.
  rewrite (get_adafruit_data_miss cfg net feed_key b Hcred Hmiss Hfeed), Hreply.
  cbn. eexists _, _. split; [reflexivity|].
  rewrite (get_adafruit_data_hit cfg net feed_key v); [by repeat split | done |].
  apply cache_hit_fresh with (time_time net (clock_reads b)); cbn;
    [apply lookup_insert_eq | apply lookup_insert_eq | done].
Qed.

(** X3: when the request is rate limited by Adafruit IO, fails, or
    carries an unreadable body, the call returns the value last cached
    for the feed, however old (None if there is none), and the cache is
    left as it was. *)
Theorem get_adafruit_data_falls_back_to_stale cfg net feed_key b :
  no_credentials cfg = false ->
  feed_name_of cfg feed_key <> "" ->
  cache_hit feed_key (time_time net (clock_reads b)) b = None ->
  no_fresh_value (http_reply net (requests b)) ->
  exists b',
    get_adafruit_data cfg net feed_key b
    = (Returned (default None (_adafruit_cache b !! feed_key)), b')
    /\ _adafruit_cache b' = _adafruit_cache b
    /\ _adafruit_cache_time b' = _adafruit_cache_time b
    /\ requests b' = S (requests b).
Proof.
  intros Hcred Hfeed Hmiss Hreply.
  rewrite (get_adafruit_data_miss cfg net feed_key b Hcred Hmiss Hfeed).
  destruct (http_reply net (requests b)) as [status [value|e]|e]; cbn in Hreply |- *.
  - subst status. cbn. by eexists.
  - destruct Hreply as [-> | ->]; cbn; by eexists.
  - by eexists.
Qed.

(** X4: any other status (neither 200 nor 429) makes the call return
    None even when a value is cached for the feed; the cached value
    stays. *)
Theorem get_adafruit_data_other_status_is_none cfg net feed_key status body b :
  no_credentials cfg = false ->
  feed_name_of cfg feed_key <> "" ->
  cache_hit feed_key (time_time net (clock_reads b)) b = None ->
  http_reply net (requests b) = Replied status body ->
  status <> 200%Z -> status <> 429%Z ->
  exists b',
    get_adafruit_data cfg net feed_key b = (Returned None, b')
    /\ _adafruit_cache b' = _adafruit_cache b
    /\ _adafruit_cache_time b' = _adafruit_cache_time b.
Proof.
  intros Hcred Hfeed Hmiss Hreply H200 H429.
  rewrite (get_adafruit_data_miss cfg net feed_key b Hcred Hmiss Hfeed), Hreply.
  destruct body as [value|e]; cbn; rewrite !decide_False by done; by eexists.
Qed.

(** X5: without credentials the call returns None and touches nothing;
    for a feed key that is not configured (and not cached) it returns
    None without a request. *)
Theorem get_adafruit_data_unconfigured cfg net feed_key b :
  (no_credentials cfg = true ->
   get_adafruit_data cfg net feed_key b = (Returned None, b))
  /\ (no_credentials cfg = false ->
      AIO_FEEDS cfg !! feed_key = None ->
      _adafruit_cache b !! feed_key = None ->
      exists b',
        get_adafruit_data cfg net feed_key b = (Returned None, b')
        /\ requests b' = requests b /\ calls b' = calls b).
Proof.
  split.
  - intros Hcred. unfold get_adafruit_data. by rewrite Hcred.
  - intros Hcred Hfeed Hcache.
    assert (Hmiss : cache_hit feed_key (time_time net (clock_reads b)) b = None)
      by (unfold cache_hit; by rewrite Hcache).
    rewrite get_adafruit_data_no_feed; [| done | done |].
    + exists (snd (time_now net b)). split; [|done].
      unfold feeds_get, cache_get. rewrite Hcache.
      by destruct (AIO_FEEDS cfg).
    + unfold feeds_get. intros feed_name.
      destruct (AIO_FEEDS cfg) as [| | | | | |members] eqn:Hfeeds; try done.
      change (dict_get members feed_key = None) in Hfeed. rewrite Hfeed.
      by intros [= <-].
Qed.

(** X6: [get_adafruit_data] never raises, makes at most one request,
    leaves the rate limiting tracker alone, and writes the cache only
    with a value that a 200 response carried, stamped with the time read
    at the start of the call. *)
Theorem get_adafruit_data_never_raises cfg net feed_key b :
  exists r b',
    get_adafruit_data cfg net feed_key b = (Returned r, b')
    /\ requests b <= requests b' <= S (requests b)
    /\ _last_command_time b' = _last_command_time b
    /\ ((_adafruit_cache b' = _adafruit_cache b
         /\ _adafruit_cache_time b' = _adafruit_cache_time b)
        \/ (http_reply net (requests b) = Replied 200 (Returned r)
            /\ _adafruit_cache b' = <[feed_key := r]> (_adafruit_cache b)
            /\ _adafruit_cache_time b'
               = <[feed_key := time_time net (clock_reads b)]> (_adafruit_cache_time b))).
Proof.
  destruct (no_credentials cfg) eqn:Hcred.
  { unfold get_adafruit_data. rewrite Hcred. exists None, b. repeat split; [lia..|by left]. }
  destruct (cache_hit feed_key (time_time net (clock_reads b)) b) as [v|] eqn:Hhit.
  { rewrite (get_adafruit_data_hit cfg net feed_key v b Hcred Hhit).
    eexists _, _. split; [reflexivity|]. cbn. repeat split; [lia..|by left]. }
  destruct (feeds_get cfg feed_key) as [feed_name|e] eqn:Hfeed;
    [destruct (json_truthy feed_name) eqn:Htruthy|]; cycle 1.
  { rewrite get_adafruit_data_no_feed; [| done | done | congruence].
    eexists _, _. split; [reflexivity|]. cbn. repeat split; [lia..|by left]. }
  { rewrite get_adafruit_data_no_feed; [| done | done | congruence].
    eexists _, _. split; [reflexivity|]. cbn. repeat split; [lia..|by left]. }
  rewrite (get_adafruit_data_fetch cfg net feed_key feed_name b Hcred Hhit Hfeed Htruthy).
  destruct (http_reply net (requests b)) as [status [value|e]|e]; cbn;
    repeat case_decide; subst;
    (eexists _, _; split; [reflexivity|]; cbn; repeat split; [lia..|]);
    solve [by left | by right].
Qed.

(** ** Sending commands *)

(** One attempt of the retry loop, by the reply it gets. *)
Lemma post_attempts_cons net url feed_key value attempt later b :
  post_attempts net url feed_key value (attempt :: later) b =
  let posted := snd (http_request net (HttpPost url value) b) in
  let again :=
    if may_retry value attempt
    then Some (post_attempts net url feed_key value later
                 (snd (time_sleep retry_delay posted)))
    else None in
  match http_reply net (requests b) with
  | Replied status _ =>
      if decide (status = 429%Z) then default (Returned RateLimited, posted) again
      else if decide (status = 200%Z \/ status = 201%Z) then
        (Returned Sent,
         snd (command_time_store feed_key (time_time net (clock_reads b))
                (snd (time_now net posted))))
      else (Returned NotSent, posted)
  | NoReply _ => default (Returned NotSent, posted) again
  end.
Proof.
  cbn [post_attempts]. b_eval.
  destruct (http_reply net (requests b)) as [status body|e]; b_eval.
  - destruct (decide (status = 429%Z)); b_eval.
    + destruct (may_retry value attempt); b_eval; cbn [default]; [|done].
      by destruct (post_attempts _ _ _ _ _ _) as [[] ?].
    + destruct (decide (status = 200%Z \/ status = 201%Z)); by b_eval.
  - destruct (may_retry value attempt); b_eval; cbn [default]; [|done].
    by destruct (post_attempts _ _ _ _ _ _) as [[] ?].
Qed.

Lemma attempts_outcome_retry net url feed_key value n b r b' :
  attempts_outcome net url feed_key value n
    (snd (time_sleep retry_delay (snd (http_request net (HttpPost url value) b)))) r b' ->
  attempts_outcome net url feed_key value (S n) b r b'.
Proof.
  unfold attempts_outcome. cbn.
  intros (Hreq & Hc & Hct & Hns & Hs & made & Hcalls & Hmade & _ & Hcount).
  repeat split; try done; try lia; try (by apply Hns); try (by apply Hs).
  exists (HttpPost url value :: TimeSleep retry_delay :: made).
  split; [|split; [|split]].
  - rewrite Hcalls, <- !app_assoc. reflexivity.
  - constructor; [by left|]. constructor; [by right | done].
  - done.
  - rewrite filter_cons_True by done. rewrite filter_cons_False by done.
    cbn. lia.
Qed.

Lemma attempts_outcome_posted net url feed_key value n b r :
  r <> Sent ->
  attempts_outcome net url feed_key value (S n) b r
    (snd (http_request net (HttpPost url value) b)).
Proof.
  intros Hr. unfold attempts_outcome. cbn.
  repeat split; try done; try lia.
  exists [HttpPost url value].
  split; [done|]. split; [by constructor; [left|]|]. split; [done|].
  rewrite filter_cons_True by done. cbn. lia.
Qed.

Lemma attempts_outcome_sent net url feed_key value n b :
  attempts_outcome net url feed_key value (S n) b Sent
    (snd (command_time_store feed_key (time_time net (clock_reads b))
            (snd (time_now net (snd (http_request net (HttpPost url value) b)))))).
Proof.
  unfold attempts_outcome. cbn.
  repeat split; try done; try lia.
  exists [HttpPost url value].
  split; [done|]. split; [by constructor; [left|]|]. split; [done|].
  rewrite filter_cons_True by done. cbn. lia.
Qed.

(** What the retry loop does to the state, whatever the replies. *)
Lemma post_attempts_spec net url feed_key value range b :
  exists r b',
    post_attempts net url feed_key value range b = (Returned r, b')
    /\ attempts_outcome net url feed_key value (length range) b r b'.
Proof.
  revert b. induction range as [|attempt later IH]; intros b.
  { exists NotSent, b. split; [done|]. unfold attempts_outcome. cbn.
    repeat split; try done; try lia.
    exists []. rewrite app_nil_r. split; [done|]. split; [constructor|].
    split; [lia | cbn; lia]. }
  rewrite post_attempts_cons. cbn zeta. cbn [length].
  assert (Hagain : forall dflt, dflt <> Sent ->
    exists r b',
      default (Returned dflt, snd (http_request net (HttpPost url value) b))
        (if may_retry value attempt
         then Some (post_attempts net url feed_key value later
                      (snd (time_sleep retry_delay
                              (snd (http_request net (HttpPost url value) b)))))
         else None) = (Returned r, b')
      /\ attempts_outcome net url feed_key value (S (length later)) b r b').
  { intros dflt Hdflt. destruct (may_retry value attempt); cbn [default].
    - destruct (IH (snd (time_sleep retry_delay
                           (snd (http_request net (HttpPost url value) b)))))
        as (r & b' & -> & Hout).
      exists r, b'. split; [done|]. by apply attempts_outcome_retry.
    - eexists _, _. split; [done|]. by apply attempts_outcome_posted. }
  destruct (http_reply net (requests b)) as [status body|e].
  - destruct (decide (status = 429%Z)); [by apply Hagain|].
    destruct (decide (status = 200%Z \/ status = 201%Z)).
    + eexists _, _. split; [done|]. apply attempts_outcome_sent.
    + eexists _, _. split; [done|]. by apply attempts_outcome_posted.
  - by apply Hagain.
Qed.

Lemma send_adafruit_command_unfold cfg net feed_key value b :
  send_adafruit_command cfg net feed_key value b =
  let started := snd (time_now net b) in
  if locally_limited feed_key value (time_time net (clock_reads b)) b
  then (Returned RateLimited, started)
  else if no_credentials cfg then (Returned NotSent, started)
  else
    match feeds_get cfg feed_key with
    | Returned feed_name =>
        if json_truthy feed_name
        then post_attempts net (feed_url cfg (name_text cfg feed_name) "/data")
               feed_key value (seq 0 (max_retries value)) started
        else (Returned NotSent, started)
    | Raised e => (Raised e, started)
    end.
Proof.
  unfold send_adafruit_command, locally_limited. b_eval.
  destruct (negb (is_stop_command value) && _); [done|].
  destruct (no_credentials cfg); [done|].
  destruct (feeds_get cfg feed_key) as [feed_name|e]; [|done].
  by destruct (json_truthy feed_name).
Qed.

(** With a feed name for the key, the lookup is out of the way. *)
Lemma send_adafruit_command_named cfg net feed_key value b :
  feed_name_of cfg feed_key <> "" ->
  send_adafruit_command cfg net feed_key value b =
  let started := snd (time_now net b) in
  if locally_limited feed_key value (time_time net (clock_reads b)) b
  then (Returned RateLimited, started)
  else if no_credentials cfg then (Returned NotSent, started)
  else post_attempts net (command_url cfg feed_key) feed_key value
         (seq 0 (max_retries value)) started.
Proof.
  intros Hfeed. rewrite send_adafruit_command_unfold. unfold command_url.
  destruct (feed_name_of_nonempty cfg feed_key Hfeed) as (feed_name & -> & -> & <-).
  reflexivity.
Qed.

(** How a call of [send_adafruit_command] can end, whatever the
    replies: without a request, returning a result that is not True or
    raising what the lookup of the feed name raised; or by the retry
    loop. *)
Lemma send_adafruit_command_cases cfg net feed_key value b :
  (exists out,
     send_adafruit_command cfg net feed_key value b = (out, snd (time_now net b))
     /\ out <> Returned Sent
     /\ forall e, out = Raised e ->
                  locally_limited feed_key value (time_time net (clock_reads b)) b = false
                  /\ no_credentials cfg = false
                  /\ feeds_get cfg feed_key = Raised e)
  \/ (exists feed_name r b',
        feeds_get cfg feed_key = Returned feed_name
        /\ send_adafruit_command cfg net feed_key value b = (Returned r, b')
        /\ attempts_outcome net (feed_url cfg (name_text cfg feed_name) "/data")
             feed_key value (max_retries value) (snd (time_now net b)) r b').
Proof.
  rewrite send_adafruit_command_unfold. cbn zeta.
  destruct (locally_limited _ _ _ _) eqn:Hlimit;
    [left; eexists; split; [reflexivity|]; by split|].
  destruct (no_credentials cfg) eqn:Hcred;
    [left; eexists; split; [reflexivity|]; by split|].
  destruct (feeds_get cfg feed_key) as [feed_name|e] eqn:Hfeed.
  - destruct (json_truthy feed_name);
      [|left; eexists; split; [reflexivity|]; by split].
    destruct (post_attempts_spec net (feed_url cfg (name_text cfg feed_name) "/data")
                feed_key value (seq 0 (max_retries value)) (snd (time_now net b)))
      as (r & b' & Hrun & Hout).
    rewrite length_seq in Hout. right. by exists feed_name, r, b'.
  - left. eexists. split; [reflexivity|]. split; [done|].
    by intros e' [= <-].
Qed.

Lemma max_retries_bound value : 1 <= max_retries value <= 3.
Proof. unfold max_retries. destruct (is_stop_command value); lia. Qed.

(** X7: [send_adafruit_command] raises in one place only, the lookup
    of the feed name (line 242, outside every [try]): it raises exactly
    when the command passed the local rate limit, the credentials are
    set and [AIO_FEEDS] is not an object, and then before any request;
    with an object for [AIO_FEEDS] it returns.  However it ends, it
    makes at most three POST requests for a stop command and at most
    one for any other, never touches the cache, and records the time of
    the command for the feed exactly when it returns True. *)
Theorem send_adafruit_command_raises_only_at_feed_lookup cfg net feed_key value b :
  exists out b',
    send_adafruit_command cfg net feed_key value b = (out, b')
    /\ requests b <= requests b'
       <= requests b + (if is_stop_command value then 3 else 1)
    /\ _adafruit_cache b' = _adafruit_cache b
    /\ _adafruit_cache_time b' = _adafruit_cache_time b
    /\ (out <> Returned Sent -> _last_command_time b' = _last_command_time b)
    /\ (out = Returned Sent ->
        _last_command_time b'
        = <[feed_key := time_time net (S (clock_reads b))]> (_last_command_time b))
    /\ (forall members, AIO_FEEDS cfg = JObj members -> exists r, out = Returned r)
    /\ (forall e,
          out = Raised e <->
          locally_limited feed_key value (time_time net (clock_reads b)) b = false
          /\ no_credentials cfg = false
          /\ feeds_get cfg feed_key = Raised e)
    /\ (forall e, out = Raised e -> requests b' = requests b /\ calls b' = calls b).
Proof.
  destruct (send_adafruit_command_cases cfg net feed_key value b)
    as [(out & Hrun & Hout & Hraise)|(feed_name & r & b' & Hfeed & Hrun & Hattempts)];
    rewrite Hrun.
  - exists out, (snd (time_now net b)). cbn.
    split_and!; try done; try (destruct (is_stop_command value); lia).
    + intros members Hfeeds. destruct out as [r|e]; [by exists r|].
      destruct (Hraise e eq_refl) as (_ & _ & Hget).
      by rewrite (feeds_get_object _ _ _ Hfeeds) in Hget.
    + intros e. split; [apply Hraise|].
      intros (Hlimit & Hcred & Hget). revert Hrun.
      rewrite send_adafruit_command_unfold. cbn zeta. rewrite Hlimit, Hcred, Hget.
      by intros [= <-].
  - destruct Hattempts as (Hreq & Hc & Hct & Hns & Hs & _).
    exists (Returned r), b'. cbn in *. unfold max_retries in Hreq.
    split_and!; try done; try (destruct (is_stop_command value); lia).
    + intros Hr. apply Hns. congruence.
    + intros [= ->]. by apply Hs.
    + by exists r.
    + intros e. split; [done|]. intros (_ & _ & Hget). congruence.
Qed.

(** X8: a command that is not a stop, sent to a feed less than two
    seconds after the last command that feed accepted, is refused with
    "rate_limited" before any request is made. *)
Theorem send_adafruit_command_local_rate_limit cfg net feed_key value t b :
  is_stop_command value = false ->
  _last_command_time b !! feed_key = Some t ->
  PrimFloat.ltb (PrimFloat.sub (time_time net (clock_reads b)) t) RATE_LIMIT_SECONDS = true ->
  exists b',
    send_adafruit_command cfg net feed_key value b = (Returned RateLimited, b')
    /\ requests b' = requests b
    /\ calls b' = calls b
    /\ _last_command_time b' = _last_command_time b.
Proof.
  intros Hstop Hlast Hrecent. rewrite send_adafruit_command_unfold.
  unfold locally_limited. rewrite Hstop, Hlast. cbn. rewrite Hrecent.
  by eexists.
Qed.

(** X9: once a command was sent to a feed, a following command to the
    same feed that is not a stop, issued less than two seconds after the
    time recorded for the first, is rate limited without a request. *)
Theorem send_adafruit_command_sent_then_limited cfg net feed_key value b b1 :
  send_adafruit_command cfg net feed_key value b = (Returned Sent, b1) ->
  exists t,
    _last_command_time b1 !! feed_key = Some t
    /\ forall value',
         is_stop_command value' = false ->
         PrimFloat.ltb (PrimFloat.sub (time_time net (clock_reads b1)) t)
                       RATE_LIMIT_SECONDS = true ->
         exists b2,
           send_adafruit_command cfg net feed_key value' b1 = (Returned RateLimited, b2)
           /\ requests b2 = requests b1.
Proof.
  intros Hsent.
  assert (Hlast : _last_command_time b1 !! feed_key
                  = Some (time_time net (S (clock_reads b)))).
  { destruct (send_adafruit_command_cases cfg net feed_key value b)
      as [(out & Hrun & Hout & _)|(feed_name & r & b' & _ & Hrun & Hattempts)];
      rewrite Hrun in Hsent.
    - by injection Hsent as -> _.
    - injection Hsent as -> ->.
      destruct Hattempts as (_ & _ & _ & _ & Hs & _).
      destruct (Hs eq_refl) as [-> _]. cbn. apply lookup_insert_eq. }
  eexists. split; [exact Hlast|].
  intros value' Hstop Hrecent. rewrite send_adafruit_command_unfold.
  unfold locally_limited. rewrite Hstop, Hlast. cbn. rewrite Hrecent.
  by eexists.
Qed.

(** X10: a stop command is never refused locally: with credentials and
    a configured feed its POST goes out first thing, however recently a
    command was sent to the feed. *)
Theorem send_adafruit_command_stop_bypasses_limit cfg net feed_key value b :
  is_stop_command value = true ->
  no_credentials cfg = false ->
  feed_name_of cfg feed_key <> "" ->
  exists r b' rest,
    send_adafruit_command cfg net feed_key value b = (Returned r, b')
    /\ calls b' = calls b ++ HttpPost (command_url cfg feed_key) value :: rest
    /\ S (requests b) <= requests b'.
Proof.
  intros Hstop Hcred Hfeed. rewrite send_adafruit_command_named by done.
  unfold locally_limited. rewrite Hstop, Hcred. cbn.
  destruct (post_attempts_spec net (command_url cfg feed_key) feed_key value
              (seq 0 (max_retries value))
              (snd (time_now net b)))
    as (r & b' & Hrun & Hreq & _ & _ & _ & _ & made & Hcalls & _ & Hhead & Hcount).
  cbn in Hrun, Hcalls, Hreq, Hcount. rewrite Hrun.
  rewrite length_seq in Hhead. unfold max_retries in Hhead. rewrite Hstop in Hhead.
  destruct made as [|c rest]; [by specialize (Hhead ltac:(lia))|].
  specialize (Hhead ltac:(lia)). injection Hhead as ->.
  exists r, b', rest. split; [done|]. split; [done|].
  rewrite filter_cons_True in Hcount by done. cbn in Hcount. lia.
Qed.

Lemma may_retry_stop value :
  is_stop_command value = true ->
  may_retry value 0 = true /\ may_retry value 1 = true /\ may_retry value 2 = false.
Proof. intros Hstop. unfold may_retry, max_retries. by rewrite Hstop. Qed.

Lemma may_retry_other value attempt :
  is_stop_command value = false -> may_retry value attempt = false.
Proof. intros Hstop. unfold may_retry. by rewrite Hstop. Qed.

Lemma send_adafruit_command_stop cfg net feed_key value b :
  is_stop_command value = true ->
  no_credentials cfg = false ->
  feed_name_of cfg feed_key <> "" ->
  send_adafruit_command cfg net feed_key value b
  = post_attempts net (command_url cfg feed_key) feed_key value [0; 1; 2]
      (snd (time_now net b)).
Proof.
  intros Hstop Hcred Hfeed. rewrite send_adafruit_command_named by done.
  unfold locally_limited, max_retries. by rewrite Hstop, Hcred.
Qed.

(** X11: a stop command whose first POST is answered with 429, or not
    at all, is posted again after a sleep of 2.5 seconds; when the second
    POST is accepted (200 or 201) the command returns True having made
    exactly these three calls. *)
Theorem send_adafruit_command_stop_retries cfg net feed_key value b :
  is_stop_command value = true ->
  no_credentials cfg = false ->
  feed_name_of cfg feed_key <> "" ->
  retriable (http_reply net (requests b)) ->
  accepted (http_reply net (S (requests b))) ->
  exists b',
    send_adafruit_command cfg net feed_key value b = (Returned Sent, b')
    /\ calls b' = calls b ++ [ HttpPost (command_url cfg feed_key) value;
                               TimeSleep retry_delay;
                               HttpPost (command_url cfg feed_key) value ]
    /\ _last_command_time b'
       = <[feed_key := time_time net (S (clock_reads b))]> (_last_command_time b).
Proof.
  intros Hstop Hcred Hfeed Hfirst Hsecond.
  destruct (may_retry_stop value Hstop) as (Hr0 & Hr1 & Hr2).
  rewrite send_adafruit_command_stop by done.
  repeat (rewrite post_attempts_cons; cbn zeta).
  rewrite Hr0, Hr1, Hr2. cbn [default].
  unfold time_sleep, http_request, time_now; cbn [requests snd].
  destruct (http_reply net (requests b)) as [st0 bd0|e0]; cbn in Hfirst;
    (destruct (http_reply net (S (requests b))) as [st1 bd1|e1]; cbn in Hsecond;
     [|done]);
    subst; cbn;
    rewrite (decide_False (P := st1 = 429%Z)) by (destruct Hsecond; lia);
    rewrite (decide_True (P := st1 = 200%Z \/ st1 = 201%Z)) by done;
    (eexists; split; [reflexivity|]; cbn; by rewrite <- !app_assoc).
Qed.

(** X12: a stop command gives up after the third POST: when all three
    are answered with 429 or not at all, it returns "rate_limited" if the
    third got a 429 and False if it got no response, after exactly three
    POSTs and two sleeps, and records no command time. *)
Theorem send_adafruit_command_stop_gives_up cfg net feed_key value b :
  is_stop_command value = true ->
  no_credentials cfg = false ->
  feed_name_of cfg feed_key <> "" ->
  retriable (http_reply net (requests b)) ->
  retriable (http_reply net (S (requests b))) ->
  retriable (http_reply net (S (S (requests b)))) ->
  exists b',
    send_adafruit_command cfg net feed_key value b
    = (Returned (single_attempt_result (http_reply net (S (S (requests b))))), b')
    /\ single_attempt_result (http_reply net (S (S (requests b)))) <> Sent
    /\ calls b' = calls b ++ [ HttpPost (command_url cfg feed_key) value;
                               TimeSleep retry_delay;
                               HttpPost (command_url cfg feed_key) value;
                               TimeSleep retry_delay;
                               HttpPost (command_url cfg feed_key) value ]
    /\ _last_command_time b' = _last_command_time b.
Proof.
  intros Hstop Hcred Hfeed H0 H1 H2.
  destruct (may_retry_stop value Hstop) as (Hr0 & Hr1 & Hr2).
  rewrite send_adafruit_command_stop by done.
  repeat (rewrite post_attempts_cons; cbn zeta).
  rewrite Hr0, Hr1, Hr2. cbn [default]. unfold time_sleep, http_request, time_now; cbn [requests snd].
  assert (Hdrop : forall reply (x y : pyresult CommandResult * Broker),
            retriable reply ->
            match reply with
            | Replied status _ =>
                if decide (status = 429%Z) then x
                else if decide (status = 200%Z \/ status = 201%Z) then y
                else y
            | NoReply _ => x
            end = x).
  { intros [status body|e] x y Hre; [|done]. cbn in Hre. by rewrite decide_True. }
  destruct (http_reply net (requests b)) as [st0 bd0|e0]; cbn in H0;
    destruct (http_reply net (S (requests b))) as [st1 bd1|e1]; cbn in H1;
    destruct (http_reply net (S (S (requests b)))) as [st2 bd2|e2]; cbn in H2;
    subst; cbn;
    (eexists; split; [reflexivity|]; split; [done|]; cbn;
     by rewrite <- !app_assoc).
Qed.

(** X13: a command that is not a stop is posted once and never tried
    again: when it passes the local limit, with credentials and a
    configured feed, its result is decided by the one reply (429 gives
    "rate_limited", 200 or 201 True, anything else False). *)
Theorem send_adafruit_command_single_attempt cfg net feed_key value b :
  is_stop_command value = false ->
  PrimFloat.ltb (PrimFloat.sub (time_time net (clock_reads b))
                               (default 0%float (_last_command_time b !! feed_key)))
                RATE_LIMIT_SECONDS = false ->
  no_credentials cfg = false ->
  feed_name_of cfg feed_key <> "" ->
  exists b',
    send_adafruit_command cfg net feed_key value b
    = (Returned (single_attempt_result (http_reply net (requests b))), b')
    /\ calls b' = calls b ++ [HttpPost (command_url cfg feed_key) value]
    /\ requests b' = S (requests b).
Proof.
  intros Hstop Hold Hcred Hfeed. rewrite send_adafruit_command_named by done.
  unfold locally_limited, max_retries. rewrite Hstop, Hold, Hcred.
  cbn [negb andb]. cbn zeta.
  change (seq 0 1) with [0]. rewrite post_attempts_cons. cbn zeta.
  rewrite may_retry_other by done. cbn [default]. unfold time_now; cbn [requests snd].
  unfold single_attempt_result.
  destruct (http_reply net (requests b)) as [status body|e];
    repeat case_decide; by eexists.
Qed.

(** ** The control endpoints *)

Lemma control_endpoint_valid cfg net field invalid allowed feed_key members choice b r b' :
  members <> [] ->
  dict_get members field = Some (JStr choice) ->
  choice ∈ allowed ->
  send_adafruit_command cfg net feed_key choice b = (Returned r, b') ->
  control_endpoint cfg net field invalid allowed feed_key (Returned (JObj members)) b
  = (Returned (control_response field choice r), b').
Proof.
  intros Hmembers Hget Hin Hrun. unfold control_endpoint, json_get. b_eval.
  destruct members as [|m members]; [done|]. cbn [json_truthy length bool_decide negb].
  rewrite bool_decide_false by done. cbn [negb]. rewrite Hget.
  rewrite decide_True by done. b_eval. rewrite Hrun. by destruct r.
Qed.

(** What [send_adafruit_command] raises is caught by the endpoint. *)
Lemma control_endpoint_raised cfg net field invalid allowed feed_key members choice b e b' :
  members <> [] ->
  dict_get members field = Some (JStr choice) ->
  choice ∈ allowed ->
  send_adafruit_command cfg net feed_key choice b = (Raised e, b') ->
  control_endpoint cfg net field invalid allowed feed_key (Returned (JObj members)) b
  = (Returned internal_server_error, b').
Proof.
  intros Hmembers Hget Hin Hrun. unfold control_endpoint, json_get. b_eval.
  destruct members as [|m members]; [done|]. cbn [json_truthy length bool_decide negb].
  rewrite bool_decide_false by done. cbn [negb]. rewrite Hget.
  rewrite decide_True by done. b_eval. by rewrite Hrun.
Qed.

Lemma control_endpoint_invalid cfg net field invalid allowed feed_key members b :
  members <> [] ->
  (forall choice, dict_get members field = Some (JStr choice) -> choice ∉ allowed) ->
  control_endpoint cfg net field invalid allowed feed_key (Returned (JObj members)) b
  = (Returned (json_error invalid 400%Z), b).
Proof.
  intros Hmembers Hbad. unfold control_endpoint, json_get. b_eval.
  destruct members as [|m members]; [done|]. cbn [json_truthy length bool_decide negb].
  rewrite bool_decide_false by done. cbn [negb].
  destruct (dict_get (m :: members) field) as [[| | | |choice| |]|] eqn:Hget; try done.
  by rewrite decide_False by by apply Hbad.
Qed.

(** A control endpoint never raises; it answers 200, 400, 429 or 500;
    when it answers 400 the broker state is untouched, and when it
    answers 500 no request was made. *)
Lemma control_endpoint_answers cfg net field invalid allowed feed_key request_json b :
  exists (resp : Response) b',
    control_endpoint cfg net field invalid allowed feed_key request_json b
    = (Returned resp, b')
    /\ resp.2 ∈ [200%Z; 400%Z; 429%Z; 500%Z]
    /\ (resp.2 = 400%Z -> b' = b)
    /\ (resp.2 = 500%Z ->
        requests b' = requests b /\ calls b' = calls b
        /\ _last_command_time b' = _last_command_time b).
Proof.
  assert (Hquiet : forall body status,
            status = 400%Z \/ status = 500%Z ->
            exists (resp : Response) b',
              (Returned (body, status), b) = (Returned resp, b') /\
              resp.2 ∈ [200%Z; 400%Z; 429%Z; 500%Z] /\
              (resp.2 = 400%Z -> b' = b) /\
              (resp.2 = 500%Z ->
               requests b' = requests b /\ calls b' = calls b
               /\ _last_command_time b' = _last_command_time b)).
  { intros body status Hstatus. eexists _, _. split; [reflexivity|]. cbn.
    split; [|done]. rewrite !elem_of_cons. destruct Hstatus; subst; tauto. }
  unfold control_endpoint, json_get. b_eval.
  destruct request_json as [body|e]; [|apply Hquiet; by right].
  destruct (negb (json_truthy body)); [apply Hquiet; by left|].
  destruct body as [| | | | | |members]; try (apply Hquiet; by right).
  destruct (dict_get members field) as [[| | | |choice| |]|];
    try (apply Hquiet; by left).
  destruct (decide (choice ∈ allowed)); [|apply Hquiet; by left].
  b_eval.
  destruct (send_adafruit_command_cases cfg net feed_key choice b)
    as [(out & Hrun & _)|(feed_name & r & b' & _ & Hrun & _)]; rewrite Hrun.
  - destruct out as [[]|e'];
      (eexists _, _; split; [reflexivity|]; cbn; split;
       [rewrite !elem_of_cons; tauto | split; [discriminate | done || discriminate]]).
  - destruct r;
      (eexists _, _; split; [reflexivity|]; cbn; split;
       [rewrite !elem_of_cons; tauto | split; discriminate]).
Qed.

(** X14: the three control endpoints send nothing unless the request
    names one of the allowed choices as a string: otherwise they answer
    400 and leave the broker state as it was. *)
Theorem control_endpoints_reject_invalid_choice cfg net members b :
  members <> [] ->
  ((forall a, dict_get members "action" = Some (JStr a) -> a ∉ motor_actions) ->
   api_control_motor cfg net (Returned (JObj members)) b
   = (Returned (json_error "Invalid action" 400%Z), b))
  /\ ((forall s, dict_get members "state" = Some (JStr s) -> s ∉ switch_states) ->
      api_control_led cfg net (Returned (JObj members)) b
      = (Returned (json_error "Invalid state" 400%Z), b)
      /\ api_control_buzzer cfg net (Returned (JObj members)) b
         = (Returned (json_error "Invalid state" 400%Z), b)).
Proof.
  intros Hmembers. split; [intros Hbad | intros Hbad; split];
    by apply control_endpoint_invalid.
Qed.

(** X15: for an allowed action, [api_control_motor] sends exactly that
    action to the feed "motor_control" and answers by how the command
    ended: 429 with [rate_limited] when it was rate limited, 200 with
    [success] true when it was sent, 200 with [success] false when it
    was not, and 500 when the command raised. *)
Theorem api_control_motor_relays_action cfg net members action b :
  members <> [] ->
  dict_get members "action" = Some (JStr action) ->
  action ∈ motor_actions ->
  exists out b',
    send_adafruit_command cfg net "motor_control" action b = (out, b')
    /\ api_control_motor cfg net (Returned (JObj members)) b
       = (Returned
            (match out with
             | Returned RateLimited =>
                 (JObj [("success", JBool false); ("action", JStr action);
                        ("rate_limited", JBool true)], 429%Z)
             | Returned Sent =>
                 (JObj [("success", JBool true); ("action", JStr action)], 200%Z)
             | Returned NotSent =>
                 (JObj [("success", JBool false); ("action", JStr action)], 200%Z)
             | Raised _ => (JObj [("error", JStr "Internal server error")], 500%Z)
             end), b').
Proof.
  intros Hmembers Hget Hin.
  destruct (send_adafruit_command cfg net "motor_control" action b) as [out b'] eqn:Hrun.
  exists out, b'. split; [done|]. unfold api_control_motor.
  destruct out as [r|e].
  - rewrite (control_endpoint_valid _ _ _ _ _ _ _ _ _ _ _ Hmembers Hget Hin Hrun).
    by destruct r.
  - by rewrite (control_endpoint_raised _ _ _ _ _ _ _ _ _ _ _ Hmembers Hget Hin Hrun).
Qed.

(** X16: the control endpoints never raise, whatever the request body
    (absent, unreadable, not an object); they answer 200, 400, 429 or
    500; an answer of 400 leaves the broker state unchanged, and with an
    answer of 500 no request was made and no command time recorded. *)
Theorem control_endpoints_always_answer cfg net request_json b :
  (exists (resp : Response) b',
     api_control_motor cfg net request_json b = (Returned resp, b')
     /\ resp.2 ∈ [200%Z; 400%Z; 429%Z; 500%Z]
     /\ (resp.2 = 400%Z -> b' = b)
     /\ (resp.2 = 500%Z ->
         requests b' = requests b /\ calls b' = calls b
         /\ _last_command_time b' = _last_command_time b))
  /\ (exists (resp : Response) b',
        api_control_led cfg net request_json b = (Returned resp, b')
        /\ resp.2 ∈ [200%Z; 400%Z; 429%Z; 500%Z]
        /\ (resp.2 = 400%Z -> b' = b)
        /\ (resp.2 = 500%Z ->
            requests b' = requests b /\ calls b' = calls b
            /\ _last_command_time b' = _last_command_time b))
  /\ (exists (resp : Response) b',
        api_control_buzzer cfg net request_json b = (Returned resp, b')
        /\ resp.2 ∈ [200%Z; 400%Z; 429%Z; 500%Z]
        /\ (resp.2 = 400%Z -> b' = b)
        /\ (resp.2 = 500%Z ->
            requests b' = requests b /\ calls b' = calls b
            /\ _last_command_time b' = _last_command_time b)).
Proof. split; [|split]; apply control_endpoint_answers. Qed.

(** X17: [api_line_tracking_stop] answers "success: true" with status
    200 whenever the command returned without being rate limited, also
    when it was not sent; when the command raised it answers "success:
    false", still with status 200; without credentials it answers
    "success: true" although no request is made. *)
Theorem api_line_tracking_stop_claims_success cfg net b :
  (exists out b',
     send_adafruit_command cfg net "line_tracking" "stop" b = (out, b')
     /\ api_line_tracking_stop cfg net b
        = (Returned
             (match out with
              | Returned RateLimited =>
                  rate_limited_response
                    [("message", JStr "Rate limited - please wait 2 seconds")]
              | Returned _ => (JObj [("success", JBool true);
                                     ("message", JStr "Stop command sent")], 200%Z)
              | Raised _ => (JObj [("success", JBool false);
                                   ("message", JStr "Error sending stop command")], 200%Z)
              end), b'))
  /\ (no_credentials cfg = true ->
      exists b',
        api_line_tracking_stop cfg net b
        = (Returned (JObj [("success", JBool true);
                           ("message", JStr "Stop command sent")], 200%Z), b')
        /\ requests b' = requests b /\ calls b' = calls b).
Proof.
  split.
  - destruct (send_adafruit_command cfg net "line_tracking" "stop" b)
      as [out b'] eqn:Hrun.
    exists out, b'. split; [done|]. unfold api_line_tracking_stop. b_eval.
    rewrite Hrun. by destruct out as [[]|e].
  - intros Hcred. unfold api_line_tracking_stop. b_eval.
    rewrite send_adafruit_command_unfold. cbn zeta.
    change (locally_limited "line_tracking" "stop" (time_time net (clock_reads b)) b)
      with false.
    rewrite Hcred. by eexists.
Qed.

(** X18: [api_line_tracking_start], [api_obstacle_avoidance_start] and
    [api_obstacle_avoidance_stop] answer "success: true" exactly when the
    command was sent, and status 429 exactly when it was rate limited;
    when the command raised, the two start endpoints answer 500 (and
    only then), while the stop endpoint answers 200 with the text of the
    exception. *)
Theorem start_stop_endpoints_report_delivery cfg net b :
  (exists out b' members status,
     send_adafruit_command cfg net "line_tracking" "start" b = (out, b')
     /\ api_line_tracking_start cfg net b = (Returned (JObj members, status), b')
     /\ (dict_get members "success" = Some (JBool true) <-> out = Returned Sent)
     /\ (status = 429%Z <-> out = Returned RateLimited)
     /\ (status = 500%Z <-> exists e, out = Raised e))
  /\ (exists out b' members status,
        send_adafruit_command cfg net "obstacle_avoidance" "start" b = (out, b')
        /\ api_obstacle_avoidance_start cfg net b = (Returned (JObj members, status), b')
        /\ (dict_get members "success" = Some (JBool true) <-> out = Returned Sent)
        /\ (status = 429%Z <-> out = Returned RateLimited)
        /\ (status = 500%Z <-> exists e, out = Raised e))
  /\ (exists out b' members status,
        send_adafruit_command cfg net "obstacle_avoidance" "stop" b = (out, b')
        /\ api_obstacle_avoidance_stop cfg net b = (Returned (JObj members, status), b')
        /\ (dict_get members "success" = Some (JBool true) <-> out = Returned Sent)
        /\ (status = 429%Z <-> out = Returned RateLimited)
        /\ (forall e, out = Raised e ->
            status = 200%Z /\ dict_get members "error" = Some (JStr (exn_msg e)))).
Proof.
  split; [|split].
  - destruct (send_adafruit_command cfg net "line_tracking" "start" b)
      as [out b'] eqn:Hrun.
    exists out, b'. unfold api_line_tracking_start. b_eval. rewrite Hrun.
    destruct out as [[]|e];
      (eexists _, _; split; [done|]; split; [reflexivity|]);
      cbn; split_and!; split; intros H; try done; try discriminate;
      try (by eexists); by destruct H.
  - destruct (send_adafruit_command cfg net "obstacle_avoidance" "start" b)
      as [out b'] eqn:Hrun.
    exists out, b'. unfold api_obstacle_avoidance_start. b_eval. rewrite Hrun.
    destruct out as [[]|e];
      (eexists _, _; split; [done|]; split; [reflexivity|]);
      cbn; split_and!; split; intros H; try done; try discriminate;
      try (by eexists); by destruct H.
  - destruct (send_adafruit_command cfg net "obstacle_avoidance" "stop" b)
      as [out b'] eqn:Hrun.
    exists out, b'. unfold api_obstacle_avoidance_stop. b_eval. rewrite Hrun.
    destruct out as [[]|e];
      (eexists _, _; split; [done|]; split; [reflexivity|]);
      cbn; split_and!; try (split; intros H; try done; discriminate);
      try (by intros e' [=]); intros e' [= <-]; split; reflexivity.
Qed.

(** ** More on the history query *)

(** X19: an empty string as date filter is no filter:
    [get_historical_data] and the endpoint behave at [""] exactly as
    without a date. *)
Theorem empty_date_is_no_filter env :
  get_historical_data env (Some "") = get_historical_data env None
  /\ api_historical_data env (Body (Some "")) = api_historical_data env (Body None).
Proof. split; reflexivity. Qed.

Lemma cloud_path_closes env date_str w conn :
  CLOUD_DB_URL env <> "" ->
  cloud_link env = inl conn ->
  exists r new,
    cloud_path env date_str w = (Returned r, add_events new w)
    /\ Cloud PgClose ∈ new
    /\ Forall (fun ev => is_local_event ev = false) new.
Proof.
  intros Hurl Hlink.
  unfold cloud_path, get_cloud_connection, cloud_try, cloud_op.
  destruct (decide (CLOUD_DB_URL env = "")) as [|_]; [contradiction|].
  destruct (cast_parameter_cases env date_str) as [[_ ->]|[_ ->]];
    (destruct (conn_fault conn) as [[st e]|] eqn:Hfault;
     rewrite Hlink; py_eval; rewrite Hfault; [destruct st|]; py_cases;
     lazymatch goal with
     | |- exists r new, (_, ?t) = _ /\ _ =>
         let l := trace_of t w in
         eexists _, l; split; [reflexivity|]; cbn [app]; split;
         [rewrite !elem_of_cons; tauto | repeat constructor]
     end).
Qed.

(** X20: whenever [get_cloud_connection] hands out a connection,
    [get_historical_data] calls [close] on it before it returns, whether
    the cloud query succeeds or raises. *)
Theorem cloud_connection_is_closed env date_str w conn :
  CLOUD_DB_URL env <> "" ->
  cloud_link env = inl conn ->
  exists result new,
    get_historical_data env date_str w = (Returned result, add_events new w)
    /\ Cloud PgClose ∈ new.
Proof.
  intros Hurl Hlink. rewrite get_historical_data_unfold.
  destruct (cloud_path_closes env date_str w conn Hurl Hlink)
    as ([result|] & new & -> & Hclose & _).
  - by exists result, new.
  - destruct (local_path_returns env date_str (add_events new w))
      as (result & new' & -> & _).
    exists result, (new ++ new'). rewrite add_events_app. split; [done|].
    apply elem_of_app. by left.
Qed.

(** X21: the local path has no [close] in its handler: when a SQLite
    call after [connect] raises (cursor, execute or fetchall), the
    function returns the empty list and the SQLite connection it opened
    is never closed. *)
Theorem local_connection_left_open_on_error env date_str w st e :
  CLOUD_DB_URL env = "" \/ cloud_read_fails env ->
  local_fault env = Some (st, e) ->
  st <> LiteConnect -> st <> LiteClose ->
  exists new,
    get_historical_data env date_str w = (Returned [], add_events new w)
    /\ Local LiteConnect ∈ new
    /\ Local LiteClose ∉ new.
Proof.
  intros Hcloud Hlocal Hconnect Hclose.
  destruct (get_historical_data_falls_through env date_str w Hcloud)
    as (new1 & -> & Hnew1).
  assert (Hlocal_run : exists new2,
            local_path env date_str (add_events new1 w)
            = (Returned [], add_events new2 (add_events new1 w))
            /\ Local LiteConnect ∈ new2 /\ Local LiteClose ∉ new2).
  { unfold local_path, local_try, local_op. py_eval. rewrite Hlocal.
    destruct st; try done; py_cases;
      lazymatch goal with
      | |- exists new, (_, ?t) = _ /\ _ =>
          let l := trace_of t (add_events new1 w) in
          exists l; split; [reflexivity|]; cbn [app]; split;
          [rewrite !elem_of_cons; tauto|];
          rewrite !elem_of_cons, elem_of_nil; intros Hin;
          repeat (destruct Hin as [Hin|Hin]; [discriminate Hin|]); done
      end. }
  destruct Hlocal_run as (new2 & -> & Hin & Hout).
  exists (new1 ++ new2). rewrite add_events_app. split; [done|]. split.
  - apply elem_of_app. by right.
  - rewrite elem_of_app. intros [Hin1|Hin2]; [|done].
    rewrite Forall_forall in Hnew1. by specialize (Hnew1 _ Hin1).
Qed.

(** X22: [get_historical_data] only reads: it leaves both tables and
    the sync status as they were, and only appends to the trace. *)
Theorem get_historical_data_is_read_only env date_str w :
  local_table (snd (get_historical_data env date_str w)) = local_table w
  /\ remote_table (snd (get_historical_data env date_str w)) = remote_table w
  /\ sync_status (snd (get_historical_data env date_str w)) = sync_status w
  /\ exists new, events (snd (get_historical_data env date_str w)) = events w ++ new.
Proof.
  destruct (get_historical_data_returns env date_str w) as (result & new & ->). cbn.
  rewrite local_table_add_events, remote_table_add_events, sync_status_add_events,
    events_add_events.
  repeat split. by exists new.
Qed.

(** X23: [api_historical_data] never raises and touches no table; a
    missing or empty body is answered 400 without a query, a body that
    cannot be read or is not an object is answered 500, and a body that
    is an object is answered 200. *)
Theorem api_historical_data_always_answers env w :
  api_historical_data env NoBody w
  = (Returned (JObj [("error", JStr "JSON body required")], 400%Z), w)
  /\ (forall e, exists w',
        api_historical_data env (Unparsable e) w = (Returned internal_server_error, w')
        /\ local_table w' = local_table w /\ remote_table w' = remote_table w)
  /\ (exists w',
        api_historical_data env NotAnObject w = (Returned internal_server_error, w')
        /\ local_table w' = local_table w /\ remote_table w' = remote_table w)
  /\ (forall date_str, exists body w',
        api_historical_data env (Body date_str) w = (Returned (body, 200%Z), w')
        /\ local_table w' = local_table w /\ remote_table w' = remote_table w).
Proof.
  split; [reflexivity|]. split; [|split].
  - intros e. eexists. split; [reflexivity|]. by split.
  - eexists. split; [reflexivity|]. by split.
  - intros date_str.
    destruct (get_historical_data_returns env date_str w) as (records & new & Hrun).
    eexists _, _. rewrite (api_historical_data_body _ _ _ _ _ Hrun).
    split; [reflexivity|].
    by rewrite local_table_add_events, remote_table_add_events.
Qed.

(** X24: the local filter is compared through [date(?)]: two non-empty
    filters with the same date portion select the same rows, so a full
    datetime selects the rows of its day; and a filter that SQLite does
    not read as a date selects nothing. *)
Theorem local_select_normalises_filter env d d' table :
  d <> "" -> d' <> "" ->
  (sqlite_date env d = sqlite_date env d' ->
   local_select env (Some d) table = local_select env (Some d') table)
  /\ (sqlite_date env d = None -> local_select env (Some d) table = []).
Proof.
  intros Hd Hd'. unfold local_select, truthy.
  rewrite !decide_False by done. split.
  - by intros ->.
  - intros Hnone. rewrite Hnone.
    replace (filter _ table) with (@nil LocalRow); [done|].
    symmetry. induction table as [|r table IH]; [done|].
    rewrite filter_cons_False; [done|].
    intros [[x Hx] Heq]. congruence.
Qed.

(** ** More on ingestion and on the sync worker *)

Section IngestionEdge.

Variable get_adafruit_data : string -> option string.
Variable py_float : string -> option float.
Variable py_int : string -> option Z.
Variable now : string.
Variable save_to_local_db : Sample -> M unit.

Lemma convert_rejected {A} (conv : string -> option A) v :
  rejected conv v -> convert conv v = raise (Exception "ValueError").
Proof. intros (s & Hs & Hconv). unfold convert. by rewrite Hs, Hconv. Qed.

(** X25: when one of the four numeric readings is not empty and
    [float()] or [int()] rejects it, nothing is stored for that poll:
    [save_to_local_db] is not called, a warning is printed, and the
    response still carries the raw values with status 200. *)
Theorem api_live_data_skips_unparsable_sample w :
  rejected py_float (get_adafruit_data "ultrasonic_cm")
  \/ rejected py_int (get_adafruit_data "ir_left")
  \/ rejected py_int (get_adafruit_data "ir_center")
  \/ rejected py_int (get_adafruit_data "ir_right") ->
  api_live_data get_adafruit_data py_float py_int now save_to_local_db w
  = (Returned (polled get_adafruit_data now),
     add_event (Print (SaveWarning (Exception "ValueError"))) w).
Proof.
  intros Hbad. rewrite api_live_data_unfold.
  assert (Hraise :
    store_sample py_float py_int save_to_local_db now
      (get_adafruit_data "ultrasonic_cm") (get_adafruit_data "ir_left")
      (get_adafruit_data "ir_center") (get_adafruit_data "ir_right")
      (get_adafruit_data "line_state")
    = raise (Exception "ValueError")).
  { unfold store_sample.
    destruct (convert_cases py_float (get_adafruit_data "ultrasonic_cm"))
      as [[u Hu]|Hu]; rewrite Hu; [|done].
    destruct (convert_cases py_int (get_adafruit_data "ir_left"))
      as [[l Hl]|Hl]; rewrite Hl; [|done].
    destruct (convert_cases py_int (get_adafruit_data "ir_center"))
      as [[c Hc]|Hc]; rewrite Hc; [|done].
    destruct (convert_cases py_int (get_adafruit_data "ir_right"))
      as [[r Hr]|Hr]; rewrite Hr; [|done].
    exfalso.
    destruct Hbad as [H|[H|[H|H]]]; apply convert_rejected in H;
      [rewrite H in Hu; apply (f_equal (fun m => fst (m w))) in Hu
      |rewrite H in Hl; apply (f_equal (fun m => fst (m w))) in Hl
      |rewrite H in Hc; apply (f_equal (fun m => fst (m w))) in Hc
      |rewrite H in Hr; apply (f_equal (fun m => fst (m w))) in Hr];
      discriminate. }
  by rewrite Hraise.
Qed.

End IngestionEdge.

Section SyncWorkerEdge.

Variable sync_to_cloud : M unit.

(** X26: [sync_loop] has no handler around the cycle: when
    [sync_to_cloud] raises on a reachable tick, the exception leaves the
    loop, which neither sleeps nor probes again; the worker is dead for
    all later ticks. *)
Theorem sync_loop_dies_with_sync_to_cloud later w e w' :
  sync_to_cloud (add_events [CheckInternet true; SyncToCloud] w) = (Raised e, w') ->
  sync_loop sync_to_cloud (true :: later) w = (Raised e, w')
  /\ run sync_to_cloud true (Tick <$> true :: later) w = w'.
Proof.
  intros Hraise.
  assert (Hiter : sync_iteration sync_to_cloud true w = (Raised e, w')).
  { unfold sync_iteration, check_internet. py_eval.
    change (add_event SyncToCloud (add_event (CheckInternet true) w))
      with (add_events [CheckInternet true; SyncToCloud] w).
    by rewrite Hraise. }
  split.
  - by rewrite sync_loop_cons, Hiter.
  - rewrite fmap_cons. cbn [run]. rewrite Hiter. apply run_dead_worker.
Qed.

Lemma sync_iteration_quiet up w :
  quiet sync_to_cloud ->
  exists w',
    sync_iteration sync_to_cloud up w = (Returned (), w')
    /\ events w' = events w ++ tick_events up.
Proof.
  intros Hquiet. destruct up; [|by eexists; rewrite sync_iteration_unreachable,
                                   events_add_events].
  unfold sync_iteration, check_internet. py_eval.
  destruct (Hquiet (add_event SyncToCloud (add_event (CheckInternet true) w)))
    as (w' & -> & Hev).
  eexists. split; [reflexivity|]. cbn. rewrite Hev. cbn.
  by rewrite <- !app_assoc.
Qed.

(** X27: around a [sync_to_cloud] that returns and logs nothing itself,
    the loop probes once per tick, calls [sync_to_cloud] once on each
    reachable tick and on no other, and sleeps 300 seconds after every
    tick. *)
Theorem sync_loop_one_cycle_per_reachable_tick network w :
  quiet sync_to_cloud ->
  exists w',
    sync_loop sync_to_cloud network w = (Returned (), w')
    /\ events w' = events w ++ (network ≫= tick_events).
Proof.
  intros Hquiet. revert w.
  induction network as [|up network IH]; intros w.
  - exists w. split; [done|]. cbn. by rewrite app_nil_r.
  - rewrite sync_loop_cons.
    destruct (sync_iteration_quiet up w Hquiet) as (w1 & -> & Hev1).
    destruct (IH w1) as (w' & -> & Hev).
    exists w'. split; [done|]. rewrite Hev, Hev1. cbn.
    by rewrite <- app_assoc.
Qed.

End SyncWorkerEdge.

(** ** The further properties on the example data *)

Lemma get_adafruit_data_serves_fresh_cache_witness :
  exists b',
    get_adafruit_data aio (net_of [1004%float] []) "ultrasonic_cm" broker_cached
    = (Returned (Some "12.5"), b')
    /\ requests b' = 0.
Proof.
  destruct (get_adafruit_data_serves_fresh_cache aio (net_of [1004%float] [])
              "ultrasonic_cm" (Some "12.5") 1000%float broker_cached)
    as (b' & Hrun & Hreq & _); [reflexivity..|].
  by exists b'.
Defined.

Lemma get_adafruit_data_fetch_then_hit_witness :
  exists b1 b2,
    get_adafruit_data aio (net_of [1000%float; 1003%float] [ok "31"]) "ultrasonic_cm" broker0
    = (Returned (Some "31"), b1)
    /\ get_adafruit_data aio (net_of [1000%float; 1003%float] [ok "31"]) "ultrasonic_cm" b1
       = (Returned (Some "31"), b2)
    /\ requests b2 = 1.
Proof.
  destruct (get_adafruit_data_fetch_then_hit aio
              (net_of [1000%float; 1003%float] [ok "31"]) "ultrasonic_cm" (Some "31") broker0)
    as (b1 & b2 & H1 & H2 & Hreq & _);
    [reflexivity | by vm_compute | reflexivity..|].
  by exists b1, b2.
Defined.

Lemma get_adafruit_data_falls_back_to_stale_witness :
  exists b',
    get_adafruit_data aio (net_of [1030%float] [too_many]) "ultrasonic_cm" broker_cached
    = (Returned (Some "12.5"), b')
    /\ requests b' = 1.
Proof.
  destruct (get_adafruit_data_falls_back_to_stale aio (net_of [1030%float] [too_many])
              "ultrasonic_cm" broker_cached)
    as (b' & Hrun & _ & _ & Hreq);
    [reflexivity | by vm_compute | reflexivity | reflexivity |].
  by exists b'.
Defined.

Lemma get_adafruit_data_other_status_is_none_witness :
  exists b',
    get_adafruit_data aio (net_of [1030%float] [Replied 503 (Returned None)])
                      "ultrasonic_cm" broker_cached
    = (Returned None, b')
    /\ _adafruit_cache b' = _adafruit_cache broker_cached.
Proof.
  destruct (get_adafruit_data_other_status_is_none aio
              (net_of [1030%float] [Replied 503 (Returned None)])
              "ultrasonic_cm" 503%Z (Returned None) broker_cached)
    as (b' & Hrun & Hcache & _);
    [reflexivity | by vm_compute | reflexivity | reflexivity | done | done |].
  by exists b'.
Defined.

Lemma get_adafruit_data_unconfigured_witness :
  get_adafruit_data aio_blank (net_of [] []) "ultrasonic_cm" broker_cached
  = (Returned None, broker_cached)
  /\ exists b',
       get_adafruit_data aio (net_of [5%float] []) "camera_motion" broker0
       = (Returned None, b')
       /\ requests b' = 0.
Proof.
  destruct (get_adafruit_data_unconfigured aio_blank (net_of [] []) "ultrasonic_cm"
              broker_cached) as [Hblank _].
  destruct (get_adafruit_data_unconfigured aio (net_of [5%float] []) "camera_motion"
              broker0) as [_ Hfeed].
  split; [by apply Hblank|].
  destruct Hfeed as (b' & Hrun & Hreq & _); [reflexivity..|].
  by exists b'.
Defined.

Lemma send_adafruit_command_local_rate_limit_witness :
  exists b',
    send_adafruit_command aio (net_of [1001%float] []) "motor_control" "left" broker_sent
    = (Returned RateLimited, b')
    /\ requests b' = 0.
Proof.
  destruct (send_adafruit_command_local_rate_limit aio (net_of [1001%float] [])
              "motor_control" "left" 1000%float broker_sent)
    as (b' & Hrun & Hreq & _); [reflexivity..|].
  by exists b'.
Defined.

Lemma send_adafruit_command_sent_then_limited_witness :
  exists b1 b2,
    send_adafruit_command aio (net_of [1000%float; 1000.5%float; 1001%float] [ok "forward"])
      "motor_control" "forward" broker0 = (Returned Sent, b1)
    /\ send_adafruit_command aio (net_of [1000%float; 1000.5%float; 1001%float] [ok "forward"])
         "motor_control" "left" b1 = (Returned RateLimited, b2)
    /\ requests b2 = 1.
Proof.
  pose (net := net_of [1000%float; 1000.5%float; 1001%float] [ok "forward"]).
  pose (b1 := snd (send_adafruit_command aio net "motor_control" "forward" broker0)).
  assert (Hsent : send_adafruit_command aio net "motor_control" "forward" broker0
                  = (Returned Sent, b1)) by (by vm_compute).
  destruct (send_adafruit_command_sent_then_limited aio net "motor_control" "forward"
              broker0 b1 Hsent) as (t & Hlast & Hnext).
  assert (Ht : t = 1000.5%float).
  { vm_compute in Hlast. by injection Hlast as <-. }
  destruct (Hnext "left") as (b2 & Hrun & Hreq); [reflexivity | by rewrite Ht |].
  exists b1, b2. split; [exact Hsent|]. split; [exact Hrun|].
  rewrite Hreq. reflexivity.
Defined.

Lemma send_adafruit_command_stop_bypasses_limit_witness :
  exists r b' rest,
    send_adafruit_command aio (net_of [1001%float; 1002%float] [ok "stop"])
      "motor_control" "STOP" broker_sent = (Returned r, b')
    /\ calls b' = calls broker_sent ++ HttpPost (command_url aio "motor_control") "STOP" :: rest.
Proof.
  destruct (send_adafruit_command_stop_bypasses_limit aio
              (net_of [1001%float; 1002%float] [ok "stop"]) "motor_control" "STOP" broker_sent)
    as (r & b' & rest & Hrun & Hcalls & _); [reflexivity | reflexivity | by vm_compute |].
  by exists r, b', rest.
Defined.

Lemma send_adafruit_command_stop_retries_witness :
  exists b',
    send_adafruit_command aio (net_of [1001%float; 1004%float] [too_many; ok "stop"])
      "line_tracking" "stop" broker0 = (Returned Sent, b')
    /\ _last_command_time b' !! "line_tracking" = Some 1004%float.
Proof.
  destruct (send_adafruit_command_stop_retries aio
              (net_of [1001%float; 1004%float] [too_many; ok "stop"])
              "line_tracking" "stop" broker0)
    as (b' & Hrun & _ & Hlast);
    [reflexivity | reflexivity | by vm_compute | reflexivity | by left |].
  exists b'. split; [exact Hrun|]. rewrite Hlast. apply lookup_insert_eq.
Defined.

Lemma send_adafruit_command_stop_gives_up_witness :
  exists b',
    send_adafruit_command aio (net_of [1001%float] [too_many; too_many; too_many])
      "line_tracking" "stop" broker0 = (Returned RateLimited, b')
    /\ _last_command_time b' = ∅.
Proof.
  destruct (send_adafruit_command_stop_gives_up aio
              (net_of [1001%float] [too_many; too_many; too_many])
              "line_tracking" "stop" broker0)
    as (b' & Hrun & _ & _ & Hlast);
    [reflexivity | reflexivity | by vm_compute | reflexivity..|].
  by exists b'.
Defined.

Lemma send_adafruit_command_single_attempt_witness :
  exists b',
    send_adafruit_command aio (net_of [1001%float] [too_many]) "motor_control" "forward" broker0
    = (Returned RateLimited, b')
    /\ requests b' = 1.
Proof.
  destruct (send_adafruit_command_single_attempt aio (net_of [1001%float] [too_many])
              "motor_control" "forward" broker0)
    as (b' & Hrun & _ & Hreq);
    [reflexivity | reflexivity | reflexivity | by vm_compute |].
  by exists b'.
Defined.

Lemma control_endpoints_reject_invalid_choice_witness :
  api_control_motor aio (net_of [] []) (Returned (JObj [("action", JStr "jump")])) broker0
  = (Returned (json_error "Invalid action" 400%Z), broker0).
Proof.
  apply (control_endpoints_reject_invalid_choice aio (net_of [] [])
           [("action", JStr "jump")] broker0); [done|].
  intros a [= <-]. unfold motor_actions. rewrite !elem_of_cons, elem_of_nil.
  intros [H|[H|[H|[H|[H|[]]]]]]; discriminate H.
Defined.

Lemma api_control_motor_relays_action_witness :
  exists b',
    api_control_motor aio (net_of [1001%float; 1002%float] [ok "left"])
      (Returned (JObj [("action", JStr "left")])) broker0
    = (Returned (JObj [("success", JBool true); ("action", JStr "left")], 200%Z), b')
    /\ calls b' = [HttpPost "https://io.adafruit.com/api/v2/rover/feeds/motor/data" "left"].
Proof.
  destruct (api_control_motor_relays_action aio
              (net_of [1001%float; 1002%float] [ok "left"])
              [("action", JStr "left")] "left" broker0)
    as (out & b' & Hsend & Hrun); [done | reflexivity | |].
  { unfold motor_actions. rewrite !elem_of_cons. tauto. }
  vm_compute in Hsend. injection Hsend as <- <-.
  eexists. split; [exact Hrun | reflexivity].
Defined.

Lemma api_line_tracking_stop_claims_success_witness :
  exists b',
    api_line_tracking_stop aio_blank (net_of [] []) broker0
    = (Returned (JObj [("success", JBool true);
                       ("message", JStr "Stop command sent")], 200%Z), b')
    /\ requests b' = 0.
Proof.
  destruct (proj2 (api_line_tracking_stop_claims_success aio_blank (net_of [] []) broker0))
    as (b' & Hrun & Hreq & _); [reflexivity|].
  by exists b'.
Defined.

Lemma cloud_connection_is_closed_witness :
  exists result new,
    get_historical_data (env_with configured (inl (broken PgExecute)) None) None world0
    = (Returned result, add_events new world0)
    /\ Cloud PgClose ∈ new.
Proof.
  apply (cloud_connection_is_closed _ None world0 (broken PgExecute));
    [discriminate | reflexivity].
Defined.

Lemma local_connection_left_open_on_error_witness :
  exists new,
    get_historical_data
      (env_with ∅ (inl healthy) (Some (LiteExecute, Exception "database is locked")))
      None world0
    = (Returned [], add_events new world0)
    /\ Local LiteConnect ∈ new
    /\ Local LiteClose ∉ new.
Proof.
  apply (local_connection_left_open_on_error _ None world0 LiteExecute
           (Exception "database is locked"));
    [by left | reflexivity | discriminate | discriminate].
Defined.

Lemma local_select_normalises_filter_witness :
  local_select online (Some "2024-05-01T23:59:59") (local_table world0)
  = local_select online (Some "2024-05-01") (local_table world0)
  /\ local_select online (Some "yesterday") (local_table world0) = [].
Proof.
  split.
  - apply (local_select_normalises_filter online "2024-05-01T23:59:59" "2024-05-01");
      [discriminate | discriminate | reflexivity].
  - apply (local_select_normalises_filter online "yesterday" "2024-05-01");
      [discriminate | discriminate | reflexivity].
Defined.

Lemma api_live_data_skips_unparsable_sample_witness :
  api_live_data garbled float_table int_table "2024-05-02T10:00:00"
                store_locally world0
  = (Returned (polled garbled "2024-05-02T10:00:00"),
     add_event (Print (SaveWarning (Exception "ValueError"))) world0).
Proof.
  apply api_live_data_skips_unparsable_sample.
  left. exists "n/a". split; reflexivity.
Defined.

Lemma sync_loop_dies_with_sync_to_cloud_witness :
  sync_loop raising [true; true; false] world0
  = (Raised (Exception "connection lost"),
     add_events [CheckInternet true; SyncToCloud] world0)
  /\ run raising true (Tick <$> [true; true; false]) world0
     = add_events [CheckInternet true; SyncToCloud] world0.
Proof.
  apply (sync_loop_dies_with_sync_to_cloud raising [true; false] world0).
  reflexivity.
Defined.

Lemma sync_loop_one_cycle_per_reachable_tick_witness :
  exists w',
    sync_loop silent [true; false; true] world0 = (Returned (), w')
    /\ events w' = [ CheckInternet true; SyncToCloud; Sleep 300;
                    CheckInternet false; Sleep 300;
                    CheckInternet true; SyncToCloud; Sleep 300 ].
Proof.
  apply (sync_loop_one_cycle_per_reachable_tick silent [true; false; true] world0).
  intros w. by exists w.
Defined.

(** *** A feed table that is not an object *)

(** With [AIO_FEEDS='[]'] the lookup of the feed name raises
    AttributeError: [send_adafruit_command] raises to its caller after
    one reading of the clock and before any request. *)
Example send_adafruit_command_feeds_not_an_object :
  fst (send_adafruit_command aio_listed (net_of [1001%float] [ok "left"])
         "motor_control" "left" broker0)
  = Raised (Exception "'list' object has no attribute 'get'")
  /\ requests (snd (send_adafruit_command aio_listed (net_of [1001%float] [ok "left"])
                      "motor_control" "left" broker0)) = 0
  /\ clock_reads (snd (send_adafruit_command aio_listed (net_of [1001%float] [ok "left"])
                         "motor_control" "left" broker0)) = 1.
Proof. by vm_compute. Qed.

(** The endpoint catches it and answers 500. *)
Example api_control_motor_feeds_not_an_object :
  fst (api_control_motor aio_listed (net_of [1001%float] [ok "left"])
         (Returned (JObj [("action", JStr "left")])) broker0)
  = Returned (JObj [("error", JStr "Internal server error")], 500%Z)
  /\ fst (api_line_tracking_stop aio_listed (net_of [1001%float] [ok "stop"]) broker0)
     = Returned (JObj [("success", JBool false);
                       ("message", JStr "Error sending stop command")], 200%Z).
Proof. by vm_compute. Qed.

(** [get_adafruit_data] catches it too and serves what is cached,
    however old. *)
Example get_adafruit_data_feeds_not_an_object :
  fst (get_adafruit_data aio_listed (net_of [1030%float] [ok "31"])
         "ultrasonic_cm" broker_cached)
  = Returned (Some "12.5")
  /\ requests (snd (get_adafruit_data aio_listed (net_of [1030%float] [ok "31"])
                      "ultrasonic_cm" broker_cached)) = 0.
Proof. by vm_compute. Qed.

(** A feed name configured as a number goes into the URL as the
    f-string renders it. *)
Example send_adafruit_command_numbered_feed :
  fst (send_adafruit_command aio_numbered (net_of [1001%float; 1002%float] [ok "left"])
         "motor_control" "left" broker0)
  = Returned Sent
  /\ calls (snd (send_adafruit_command aio_numbered
                   (net_of [1001%float; 1002%float] [ok "left"])
                   "motor_control" "left" broker0))
     = [HttpPost "https://io.adafruit.com/api/v2/rover/feeds/7/data" "left"].
Proof. by vm_compute. Qed.
